(** * ATS / LinkedIn optimizer: scoring, plan gate and billing webhooks

    A shallow embedding of the back end of the application:
    - [backend/models/CVAnalysis.js], [backend/models/LinkedInAnalysis.js]
      (composite scores and suggestions),
    - [backend/models/User.js] (the plan gate [canPerformAction]),
    - [backend/routes/cv.js], [backend/routes/linkedin.js]
      (category scorers, optimize, compare, analyze, get-analysis),
    - [backend/routes/payments.js] (billing webhook handlers).

    JavaScript numbers that carry fractional weights are IEEE-754 binary64
    values, modelled by Rocq's primitive [float]; counters and time stamps,
    which only ever hold integers, are modelled by [Z].  Strings are
    [string]s of 8-bit characters.  Mongoose collections are lists of
    documents; a loaded document is identified by its position, and
    [save] runs the [enum] validators of the schema.  A call that throws
    is a [Throw]; payments.js reads [PRODUCT_VARIANTS] without binding it
    anywhere, so that read throws. *)

From Stdlib Require Import ZArith Floats List Bool Lia String Ascii Uint63.
Import ListNotations.

Set Warnings "-inexact-float".

Local Open Scope Z_scope.

(* ================================================================== *)
(** * JavaScript numbers *)
(* ================================================================== *)

Module JS.

(** A value of a [Number] field that may be [undefined]. *)
Definition number := option float.

(** Conversion of an exact integer below 2^53 to a double. *)
Definition of_Z (z : Z) : float :=
  if z <? 0 then PrimFloat.opp (PrimFloat.of_uint63 (Uint63.of_Z (- z)))
  else PrimFloat.of_uint63 (Uint63.of_Z z).

Definition of_nat (n : nat) : float := of_Z (Z.of_nat n).

(** [ToNumber]: [undefined] becomes [NaN]. *)
Definition ToNumber (x : number) : float :=
  match x with
  | Some f => f
  | None => PrimFloat.nan
  end.

(** [ToBoolean] on a number: [NaN], [+0] and [-0] are falsy. *)
Definition truthy (f : float) : bool :=
  negb (PrimFloat.is_nan f || PrimFloat.is_zero f).

(** [x || d] where [x] is a possibly absent number. *)
Definition or_default (x : number) (d : float) : float :=
  match x with
  | Some f => if truthy f then f else d
  | None => d
  end.

(** [Math.round]: the closest integer, ties towards +infinity; the sign of
    a zero result follows the argument (Math.round(-0.2) is -0). *)
Definition Math_round (x : float) : float :=
  match Prim2SF x with
  | S754_finite s m e =>
      if 0 <=? e then x
      else
        let v := cond_Zopp s (Z.pos m) in
        let n := (2 * v + 2 ^ (- e)) / 2 ^ (1 - e) in
        if n =? 0 then (if s then PrimFloat.neg_zero else PrimFloat.zero)
        else of_Z n
  | _ => x
  end.

(** [Math.min] of two numbers. *)
Definition Math_min (a b : float) : float :=
  if PrimFloat.is_nan a || PrimFloat.is_nan b then PrimFloat.nan
  else if PrimFloat.ltb a b then a
  else if PrimFloat.ltb b a then b
  else if PrimFloat.get_sign a then a else b.

(** Relational operators with a possibly [undefined] operand: the
    comparison is made on [ToNumber] of the operands, and any comparison
    with [NaN] is false. *)
Definition lt (a b : number) : bool := PrimFloat.ltb (ToNumber a) (ToNumber b).
Definition gt (a b : number) : bool := PrimFloat.ltb (ToNumber b) (ToNumber a).

(** A number whose sign bit is clear: +0, a positive finite number or
    +infinity. *)
Definition nonneg (f : float) : bool :=
  match Prim2SF f with
  | S754_zero s | S754_infinity s | S754_finite s _ _ => negb s
  | S754_nan => false
  end.

(** A possibly absent number that, when present, is non-negative. *)
Definition absent_or_nonneg (x : number) : bool :=
  match x with
  | Some f => nonneg f
  | None => true
  end.

Definition le (a b : number) : bool := PrimFloat.leb (ToNumber a) (ToNumber b).

Definition in_0_100 (f : float) : bool :=
  PrimFloat.leb 0%float f && PrimFloat.leb f 100%float.

(** A sub-score that is present and lies between 0 and 100. *)
Definition score_in_range (x : number) : bool :=
  match x with
  | Some f => in_0_100 f
  | None => false
  end.

End JS.

(* ================================================================== *)
(** * Specification-side arithmetic *)
(* ================================================================== *)

Module Spec.

(** Rounding to the nearest integer, a tie going away from zero. *)
Definition round_half_away_from_zero (x : float) : float :=
  match Prim2SF x with
  | S754_finite s m e =>
      if 0 <=? e then x
      else
        let n := (2 * Z.pos m + 2 ^ (- e)) / 2 ^ (1 - e) in
        if n =? 0 then (if s then PrimFloat.neg_zero else PrimFloat.zero)
        else JS.of_Z (cond_Zopp s n)
  | _ => x
  end.




End Spec.

(* ================================================================== *)
(** * models/CVAnalysis.js *)
(* ================================================================== *)

Module CVAnalysis.

Record Keywords := {
  found : list string;
  missing : list string;
  kw_score : JS.number
}.

Record Formatting := {
  hasProperSections : bool;
  hasContactInfo : bool;
  hasSkillsSection : bool;
  hasExperienceSection : bool;
  fmt_score : JS.number
}.

Record Content := {
  hasQuantifiableAchievements : bool;
  hasRelevantExperience : bool;
  hasEducationSection : bool;
  wordCount : Z;
  cnt_score : JS.number
}.

Record Technical := {
  programmingLanguages : list string;
  frameworks : list string;
  tools : list string;
  databases : list string;
  tech_score : JS.number
}.

Record Analysis := {
  keywords : Keywords;
  formatting : Formatting;
  content : Content;
  technical : Technical
}.

Record Suggestion := {
  category : string;
  priority : string;
  title : string;
  description : string;
  impact : Z
}.

Record ComparisonData := {
  beforeScore : float;
  afterScore : float;
  improvements : list string
}.

(** The document.  [locked] is the ad-hoc property the routes set on the
    loaded document; it is not a schema path. *)
Record t := {
  _id : Z;
  userId : Z;
  originalFileName : string;
  fileType : string;
  extractedText : string;
  atsScore : float;
  analysis : Analysis;
  suggestions : list Suggestion;
  optimizedVersion : option (string * Z);
  comparisonData : option ComparisonData;
  status : string;
  processingTime : Z;
  locked : bool
}.

Definition set_atsScore (d : t) (v : float) : t :=
  {| _id := _id d; userId := userId d;
     originalFileName := originalFileName d; fileType := fileType d;
     extractedText := extractedText d; atsScore := v;
     analysis := analysis d; suggestions := suggestions d;
     optimizedVersion := optimizedVersion d;
     comparisonData := comparisonData d; status := status d;
     processingTime := processingTime d; locked := locked d |}.

Definition weight_keywords : float := 0.35.
Definition weight_formatting : float := 0.25.
Definition weight_content : float := 0.25.
Definition weight_technical : float := 0.15.

(** [calculateATSScore]: stores the score on the document and returns it. *)
Definition calculateATSScore (d : t) : t * float :=
  let s_keywords := JS.or_default (kw_score (keywords (analysis d))) 0 in
  let s_formatting := JS.or_default (fmt_score (formatting (analysis d))) 0 in
  let s_content := JS.or_default (cnt_score (content (analysis d))) 0 in
  let s_technical := JS.or_default (tech_score (technical (analysis d))) 0 in
  let r := JS.Math_round
             (s_keywords * weight_keywords +
              s_formatting * weight_formatting +
              s_content * weight_content +
              s_technical * weight_technical)%float in
  (set_atsScore d r, r).

(** The weight table of the specification for résumés. *)
Definition spec_table (a : Analysis) : list (float * JS.number) :=
  [ (0.35%float, kw_score (keywords a));
    (0.25%float, fmt_score (formatting a));
    (0.25%float, cnt_score (content a));
    (0.15%float, tech_score (technical a)) ].

Definition scores_nonneg (a : Analysis) : bool :=
  JS.absent_or_nonneg (kw_score (keywords a)) &&
  JS.absent_or_nonneg (fmt_score (formatting a)) &&
  JS.absent_or_nonneg (cnt_score (content a)) &&
  JS.absent_or_nonneg (tech_score (technical a)).

Definition no_scores (a : Analysis) : Prop :=
  kw_score (keywords a) = None /\ fmt_score (formatting a) = None /\
  cnt_score (content a) = None /\ tech_score (technical a) = None.

End CVAnalysis.

(* ================================================================== *)
(** * models/LinkedInAnalysis.js *)
(* ================================================================== *)

Module LinkedInAnalysis.

Record ExperienceItem := {
  exp_title : option string;
  exp_company : option string;
  exp_duration : option string;
  exp_description : option string
}.

Record EducationItem := {
  edu_school : option string;
  edu_degree : option string;
  edu_field : option string
}.

Record ProfileData := {
  pd_headline : option string;
  pd_summary : option string;
  pd_experience : list ExperienceItem;
  pd_skills : list string;
  pd_education : list EducationItem;
  pd_connections : JS.number;
  pd_profileViews : JS.number
}.

Record Headline := {
  hl_hasKeywords : bool;
  hl_isCompelling : bool;
  hl_length : Z;
  hl_score : JS.number
}.

Record Summary := {
  sm_hasCallToAction : bool;
  sm_hasKeywords : bool;
  sm_hasAchievements : bool;
  sm_length : Z;
  sm_score : JS.number
}.

Record Experience := {
  ex_hasQuantifiableResults : bool;
  ex_hasRelevantKeywords : bool;
  ex_isWellStructured : bool;
  ex_count : Z;
  ex_score : JS.number
}.

Record Skills := {
  sk_hasRelevantSkills : bool;
  sk_hasTechnicalSkills : bool;
  sk_count : Z;
  sk_score : JS.number
}.

Record Engagement := {
  en_hasRecentActivity : bool;
  en_hasRecommendations : bool;
  en_connectionCount : float;
  en_score : JS.number
}.

Record Analysis := {
  headline : Headline;
  summary : Summary;
  experience : Experience;
  skills : Skills;
  engagement : Engagement
}.

Record OptimizedContent := {
  oc_headline : string;
  oc_summary : string;
  oc_skillsToAdd : list string
}.

Record ComparisonData := {
  beforeScore : float;
  afterScore : float;
  improvements : list string
}.

Record t := {
  _id : Z;
  userId : Z;
  profileUrl : string;
  profileData : ProfileData;
  optimizationScore : float;
  analysis : Analysis;
  optimizedContent : option OptimizedContent;
  comparisonData : option ComparisonData;
  status : string
}.

Definition set_optimizationScore (d : t) (v : float) : t :=
  {| _id := _id d; userId := userId d; profileUrl := profileUrl d;
     profileData := profileData d; optimizationScore := v;
     analysis := analysis d; optimizedContent := optimizedContent d;
     comparisonData := comparisonData d; status := status d |}.

Definition weight_headline : float := 0.25.
Definition weight_summary : float := 0.25.
Definition weight_experience : float := 0.25.
Definition weight_skills : float := 0.15.
Definition weight_engagement : float := 0.10.

(** [calculateOptimizationScore]: stores the score and returns it. *)
Definition calculateOptimizationScore (d : t) : t * float :=
  let s_headline := JS.or_default (hl_score (headline (analysis d))) 0 in
  let s_summary := JS.or_default (sm_score (summary (analysis d))) 0 in
  let s_experience := JS.or_default (ex_score (experience (analysis d))) 0 in
  let s_skills := JS.or_default (sk_score (skills (analysis d))) 0 in
  let s_engagement := JS.or_default (en_score (engagement (analysis d))) 0 in
  let r := JS.Math_round
             (s_headline * weight_headline +
              s_summary * weight_summary +
              s_experience * weight_experience +
              s_skills * weight_skills +
              s_engagement * weight_engagement)%float in
  (set_optimizationScore d r, r).

(** The weight table of the specification for profiles. *)
Definition spec_table (a : Analysis) : list (float * JS.number) :=
  [ (0.25%float, hl_score (headline a));
    (0.25%float, sm_score (summary a));
    (0.25%float, ex_score (experience a));
    (0.15%float, sk_score (skills a));
    (0.10%float, en_score (engagement a)) ].

Definition scores_nonneg (a : Analysis) : bool :=
  JS.absent_or_nonneg (hl_score (headline a)) &&
  JS.absent_or_nonneg (sm_score (summary a)) &&
  JS.absent_or_nonneg (ex_score (experience a)) &&
  JS.absent_or_nonneg (sk_score (skills a)) &&
  JS.absent_or_nonneg (en_score (engagement a)).

Definition no_scores (a : Analysis) : Prop :=
  hl_score (headline a) = None /\ sm_score (summary a) = None /\
  ex_score (experience a) = None /\ sk_score (skills a) = None /\
  en_score (engagement a) = None.

End LinkedInAnalysis.

(* ================================================================== *)
(** * models/User.js *)
(* ================================================================== *)

Module User.

Record Usage := {
  cvScans : Z;
  linkedinScans : Z;
  monthlyResetDate : Z
}.

(** Dates are milliseconds since the epoch; [None] is [null]. *)
Record t := {
  _id : Z;
  email : string;
  firstName : string;
  lastName : string;
  plan : string;
  planStatus : string;
  subscriptionId : option string;
  customerId : option string;
  planExpiresAt : option Z;
  usage : Usage
}.

(** The [enum] validators of the schema. *)
Definition plan_enum : list string :=
  ["free"; "one-time"; "basic"; "pro"]%string.
Definition planStatus_enum : list string :=
  ["active"; "cancelled"; "expired"; "pending"]%string.

Definition mem (s : string) (l : list string) : bool :=
  existsb (String.eqb s) l.

(** Validation run by [save]: the enumerated paths must hold one of
    their declared values. *)
Definition validate (u : t) : bool :=
  mem (plan u) plan_enum && mem (planStatus u) planStatus_enum.

(** [canPerformAction]; [now] is the value of [new Date()]. *)
Definition canPerformAction (u : t) (now : Z) (action : string) : bool :=
  if match planExpiresAt u with
     | Some e => e <? now
     | None => false
     end
  then false
  else
    if String.eqb action "cv_scan" then
      if String.eqb (plan u) "free" then false
      else if String.eqb (plan u) "one-time" then cvScans (usage u) <? 1
      else if String.eqb (plan u) "basic" then cvScans (usage u) <? 5
      else if String.eqb (plan u) "pro" then true
      else false
    else if String.eqb action "linkedin_scan" then
      if String.eqb (plan u) "free" then false
      else if String.eqb (plan u) "one-time" then linkedinScans (usage u) <? 1
      else if String.eqb (plan u) "basic" then linkedinScans (usage u) <? 5
      else if String.eqb (plan u) "pro" then true
      else false
    else if String.eqb action "pdf_export" then
      negb (String.eqb (plan u) "free")
    else if String.eqb action "api_access" then
      String.eqb (plan u) "pro"
    else if String.eqb action "comparison_view" then
      String.eqb (plan u) "pro"
    else false.

(** The plan is past its expiry date at time [now]. *)
Definition expired (u : t) (now : Z) : Prop :=
  exists e, planExpiresAt u = Some e /\ e < now.

Definition set_usage (u : t) (g : Usage) : t :=
  {| _id := _id u; email := email u; firstName := firstName u;
     lastName := lastName u; plan := plan u; planStatus := planStatus u;
     subscriptionId := subscriptionId u; customerId := customerId u;
     planExpiresAt := planExpiresAt u; usage := g |}.

Definition set_planStatus (u : t) (s : string) : t :=
  {| _id := _id u; email := email u; firstName := firstName u;
     lastName := lastName u; plan := plan u; planStatus := s;
     subscriptionId := subscriptionId u; customerId := customerId u;
     planExpiresAt := planExpiresAt u; usage := usage u |}.

Definition set_plan (u : t) (p : string) : t :=
  {| _id := _id u; email := email u; firstName := firstName u;
     lastName := lastName u; plan := p; planStatus := planStatus u;
     subscriptionId := subscriptionId u; customerId := customerId u;
     planExpiresAt := planExpiresAt u; usage := usage u |}.

Definition set_subscriptionId (u : t) (s : option string) : t :=
  {| _id := _id u; email := email u; firstName := firstName u;
     lastName := lastName u; plan := plan u; planStatus := planStatus u;
     subscriptionId := s; customerId := customerId u;
     planExpiresAt := planExpiresAt u; usage := usage u |}.

Definition set_customerId (u : t) (c : option string) : t :=
  {| _id := _id u; email := email u; firstName := firstName u;
     lastName := lastName u; plan := plan u; planStatus := planStatus u;
     subscriptionId := subscriptionId u; customerId := c;
     planExpiresAt := planExpiresAt u; usage := usage u |}.

Definition set_planExpiresAt (u : t) (e : option Z) : t :=
  {| _id := _id u; email := email u; firstName := firstName u;
     lastName := lastName u; plan := plan u; planStatus := planStatus u;
     subscriptionId := subscriptionId u; customerId := customerId u;
     planExpiresAt := e; usage := usage u |}.

Definition set_cvScans (u : t) (n : Z) : t :=
  set_usage u {| cvScans := n; linkedinScans := linkedinScans (usage u);
                 monthlyResetDate := monthlyResetDate (usage u) |}.

Definition set_linkedinScans (u : t) (n : Z) : t :=
  set_usage u {| cvScans := cvScans (usage u); linkedinScans := n;
                 monthlyResetDate := monthlyResetDate (usage u) |}.

Definition set_monthlyResetDate (u : t) (d : Z) : t :=
  set_usage u {| cvScans := cvScans (usage u);
                 linkedinScans := linkedinScans (usage u);
                 monthlyResetDate := d |}.

End User.

(* ================================================================== *)
(** * JavaScript strings and the regular expressions the routes use *)
(* ================================================================== *)

Module Str.

Local Open Scope string_scope.

Definition is_upper (c : ascii) : bool :=
  let n := nat_of_ascii c in (65 <=? n)%nat && (n <=? 90)%nat.

Definition is_lower (c : ascii) : bool :=
  let n := nat_of_ascii c in (97 <=? n)%nat && (n <=? 122)%nat.

Definition lower (c : ascii) : ascii :=
  if is_upper c then ascii_of_nat (nat_of_ascii c + 32) else c.

Definition upper (c : ascii) : ascii :=
  if is_lower c then ascii_of_nat (nat_of_ascii c - 32) else c.

(** [String.prototype.toLowerCase] (on the letters A to Z, the only ones
    the catalogs can meet). *)
Fixpoint toLowerCase (s : string) : string :=
  match s with
  | EmptyString => EmptyString
  | String c r => String (lower c) (toLowerCase r)
  end.

Fixpoint startsWith (s p : string) : bool :=
  match p, s with
  | EmptyString, _ => true
  | String _ _, EmptyString => false
  | String a p', String b s' => Ascii.eqb a b && startsWith s' p'
  end.

(** [String.prototype.includes]. *)
Fixpoint includes (s p : string) : bool :=
  startsWith s p ||
  match s with
  | EmptyString => false
  | String _ s' => includes s' p
  end.

(** White space as [\s] and [trim] see it, within 8-bit characters. *)
Definition is_space (c : ascii) : bool :=
  let n := nat_of_ascii c in
  ((9 <=? n)%nat && (n <=? 13)%nat) || (n =? 32)%nat || (n =? 160)%nat.

Definition is_digit (c : ascii) : bool :=
  let n := nat_of_ascii c in (48 <=? n)%nat && (n <=? 57)%nat.

(** [s.trim()] is the empty string exactly when [s] is all white space. *)
Fixpoint trim_is_empty (s : string) : bool :=
  match s with
  | EmptyString => true
  | String c r => is_space c && trim_is_empty r
  end.

(** Number of maximal white-space runs; [in_run] tells whether the
    previous character was white space. *)
Fixpoint space_runs (in_run : bool) (s : string) : nat :=
  match s with
  | EmptyString => O
  | String c r =>
      if is_space c
      then (if in_run then space_runs true r else S (space_runs true r))
      else space_runs false r
  end.

(** [s.split(/\s+/).length]: one more than the number of separators. *)
Definition split_spaces_length (s : string) : Z :=
  Z.of_nat (S (space_runs false s)).

(** [Array.prototype.join]. *)
Fixpoint join (sep : string) (l : list string) : string :=
  match l with
  | [] => EmptyString
  | [x] => x
  | x :: r => x ++ sep ++ join sep r
  end.

Definition nl : string := String (ascii_of_nat 10) EmptyString.

Definition length (s : string) : Z := Z.of_nat (String.length s).

End Str.

Module Regex.

(** The fragment of regular expressions the routes use. *)
Inductive t :=
| Never
| Eps
| Chr (c : ascii)
| Digit
| Cat (r1 r2 : t)
| Alt (r1 r2 : t)
| Star (r : t).

(** [r+] *)
Definition Plus (r : t) : t := Cat r (Star r).

(** A literal word. *)
Fixpoint lit (s : string) : t :=
  match s with
  | EmptyString => Eps
  | String c EmptyString => Chr c
  | String c r => Cat (Chr c) (lit r)
  end.

(** [r1|r2|...] *)
Fixpoint alts (l : list t) : t :=
  match l with
  | [] => Never
  | [r] => r
  | r :: rest => Alt r (alts rest)
  end.

Fixpoint nullable (r : t) : bool :=
  match r with
  | Never | Chr _ | Digit => false
  | Eps | Star _ => true
  | Cat r1 r2 => nullable r1 && nullable r2
  | Alt r1 r2 => nullable r1 || nullable r2
  end.

Definition cat (r1 r2 : t) : t :=
  match r1, r2 with
  | Never, _ | _, Never => Never
  | Eps, _ => r2
  | _, _ => Cat r1 r2
  end.

Definition alt (r1 r2 : t) : t :=
  match r1, r2 with
  | Never, _ => r2
  | _, Never => r1
  | _, _ => Alt r1 r2
  end.

(** Character comparison; with the [i] flag both sides are compared after
    [Canonicalize], which upper-cases. *)
Definition chr_eq (ignoreCase : bool) (p c : ascii) : bool :=
  if ignoreCase then Ascii.eqb (Str.upper p) (Str.upper c)
  else Ascii.eqb p c.

(** What is left of [r] after reading [c]. *)
Fixpoint deriv (ignoreCase : bool) (c : ascii) (r : t) : t :=
  match r with
  | Never | Eps => Never
  | Chr p => if chr_eq ignoreCase p c then Eps else Never
  | Digit => if Str.is_digit c then Eps else Never
  | Cat r1 r2 =>
      if nullable r1
      then alt (cat (deriv ignoreCase c r1) r2) (deriv ignoreCase c r2)
      else cat (deriv ignoreCase c r1) r2
  | Alt r1 r2 => alt (deriv ignoreCase c r1) (deriv ignoreCase c r2)
  | Star r1 => cat (deriv ignoreCase c r1) (Star r1)
  end.

(** Some prefix of [s] matches [r]. *)
Fixpoint matches_prefix (ignoreCase : bool) (r : t) (s : string) : bool :=
  nullable r ||
  match s with
  | EmptyString => false
  | String c rest =>
      match deriv ignoreCase c r with
      | Never => false
      | r' => matches_prefix ignoreCase r' rest
      end
  end.

(** [RegExp.prototype.test]: a match starts at some position of [s]. *)
Fixpoint test_from (ignoreCase : bool) (r : t) (s : string) : bool :=
  matches_prefix ignoreCase r s ||
  match s with
  | EmptyString => false
  | String _ rest => test_from ignoreCase r rest
  end.

(** [/.../i.test(s)] *)
Definition test_i (r : t) (s : string) : bool := test_from true r s.

End Regex.

(* ================================================================== *)
(** * Collections of documents *)
(* ================================================================== *)

Module Coll.

Section Ops.
Context {A : Type}.

(** Position of the first document satisfying the query. *)
Fixpoint findIndex (q : A -> bool) (l : list A) : option nat :=
  match l with
  | [] => None
  | x :: r =>
      if q x then Some O
      else match findIndex q r with
           | Some i => Some (S i)
           | None => None
           end
  end.

(** [Model.findOne(query)]: the position and the loaded document. *)
Definition findOne (q : A -> bool) (l : list A) : option (nat * A) :=
  match findIndex q l with
  | Some i =>
      match nth_error l i with
      | Some x => Some (i, x)
      | None => None
      end
  | None => None
  end.

(** [doc.save()] for the document loaded from position [i]. *)
Fixpoint update (i : nat) (x : A) (l : list A) : list A :=
  match l, i with
  | [], _ => []
  | _ :: r, O => x :: r
  | y :: r, S j => y :: update j x r
  end.
End Ops.

End Coll.

(* ================================================================== *)
(** * HTTP plumbing shared by the routes *)
(* ================================================================== *)

Module Http.

(** What a handler sends: a JSON body with status 200, or an error
    status with its message. *)
Inductive Response (A : Type) :=
| Ok (body : A)
| Error (status : Z) (error : string).
Arguments Ok {A} body.
Arguments Error {A} status error.

(** middleware/auth.js, [requirePlan(requiredPlans)]: [None] lets the
    request through, [Some] is the refusal sent instead. *)
Definition requirePlan (requiredPlans : list string) (user : User.t)
           (now : Z) : option (Z * string) :=
  if negb (User.mem (User.plan user) requiredPlans)
  then Some (403,
           ("This feature requires one of the following plans: " ++
            Str.join ", " requiredPlans)%string)
  else if match User.planExpiresAt user with
          | Some e => e <? now
          | None => false
          end
  then Some (403, "Your plan has expired. Please renew to continue."%string)
  else None.

End Http.

(* ================================================================== *)
(** * routes/cv.js *)
(* ================================================================== *)

Module CvRoutes.

Import CVAnalysis.
Local Open Scope string_scope.

Definition commonTechKeywords : list string :=
  [ "javascript"; "python"; "java"; "react"; "node.js"; "angular"; "vue";
    "typescript"; "html"; "css"; "sql"; "mongodb"; "postgresql"; "mysql";
    "aws"; "docker"; "kubernetes"; "git"; "agile"; "scrum"; "rest"; "api";
    "microservices"; "cloud"; "devops"; "ci/cd"; "testing"; "unit testing";
    "integration testing"; "tdd"; "bdd"; "redux"; "express"; "spring";
    "django"; "flask"; "laravel"; "php"; "c++"; "c#"; ".net"; "ruby";
    "rails"; "go"; "rust"; "scala"; "kotlin"; "swift"; "ios"; "android";
    "mobile"; "responsive"; "bootstrap"; "tailwind"; "sass"; "less";
    "webpack"; "babel"; "npm"; "yarn"; "jenkins"; "github"; "gitlab";
    "jira"; "confluence"; "slack"; "team collaboration"; "leadership";
    "problem solving"; "debugging"; "optimization"; "performance";
    "security"; "authentication"; "authorization"; "oauth"; "jwt" ].

Definition analyzeKeywords (text : string) : Keywords :=
  let textLower := Str.toLowerCase text in
  let found :=
    filter (fun keyword => Str.includes textLower (Str.toLowerCase keyword))
           commonTechKeywords in
  let missing :=
    firstn 10
      (filter (fun keyword =>
                 negb (Str.includes textLower (Str.toLowerCase keyword)))
              commonTechKeywords) in
  let score :=
    JS.Math_min 100 (JS.of_nat (List.length found) / 20 * 100)%float in
  {| found := found; missing := missing; kw_score := Some score |}.

Definition re_contact : Regex.t :=
  Regex.alts [Regex.lit "email"; Regex.lit "phone"; Regex.lit "linkedin";
              Regex.lit "github"].
Definition re_skills : Regex.t :=
  Regex.alts [Regex.lit "skills"; Regex.lit "technologies";
              Regex.lit "technical"].
Definition re_experience : Regex.t :=
  Regex.alts [Regex.lit "experience"; Regex.lit "work";
              Regex.lit "employment"; Regex.lit "position"].

Definition analyzeFormatting (text : string) : Formatting :=
  let hasContactInfo := Regex.test_i re_contact text in
  let hasSkillsSection := Regex.test_i re_skills text in
  let hasExperienceSection := Regex.test_i re_experience text in
  let hasProperSections :=
    hasContactInfo && hasSkillsSection && hasExperienceSection in
  let score := 0%float in
  let score := if hasContactInfo then (score + 25)%float else score in
  let score := if hasSkillsSection then (score + 25)%float else score in
  let score := if hasExperienceSection then (score + 25)%float else score in
  let score := if hasProperSections then (score + 25)%float else score in
  {| hasProperSections := hasProperSections;
     hasContactInfo := hasContactInfo;
     hasSkillsSection := hasSkillsSection;
     hasExperienceSection := hasExperienceSection;
     fmt_score := Some score |}.

Definition re_achievements : Regex.t :=
  Regex.alts [Regex.Cat (Regex.Plus Regex.Digit) (Regex.Chr "%");
              Regex.Cat (Regex.Plus Regex.Digit) (Regex.Chr "+");
              Regex.lit "increased"; Regex.lit "improved";
              Regex.lit "reduced"; Regex.lit "achieved"].
Definition re_relevant : Regex.t :=
  Regex.alts [Regex.lit "developer"; Regex.lit "engineer";
              Regex.lit "programmer"; Regex.lit "software";
              Regex.lit "technical"].
Definition re_education : Regex.t :=
  Regex.alts [Regex.lit "education"; Regex.lit "degree";
              Regex.lit "university"; Regex.lit "college";
              Regex.lit "bachelor"; Regex.lit "master"].

Definition analyzeContent (text : string) : Content :=
  let hasQuantifiableAchievements := Regex.test_i re_achievements text in
  let hasRelevantExperience := Regex.test_i re_relevant text in
  let hasEducationSection := Regex.test_i re_education text in
  let wordCount := Str.split_spaces_length text in
  let score := 0%float in
  let score :=
    if hasQuantifiableAchievements then (score + 30)%float else score in
  let score := if hasRelevantExperience then (score + 30)%float else score in
  let score := if hasEducationSection then (score + 20)%float else score in
  let score :=
    if ((300 <=? wordCount) && (wordCount <=? 800))%Z
    then (score + 20)%float else score in
  {| hasQuantifiableAchievements := hasQuantifiableAchievements;
     hasRelevantExperience := hasRelevantExperience;
     hasEducationSection := hasEducationSection;
     wordCount := wordCount;
     cnt_score := Some score |}.

Definition languageCatalog : list string :=
  ["javascript"; "python"; "java"; "typescript"; "c++"; "c#"; "php";
   "ruby"; "go"].
Definition frameworkCatalog : list string :=
  ["react"; "angular"; "vue"; "node.js"; "express"; "django"; "flask";
   "spring"; "laravel"].
Definition toolCatalog : list string :=
  ["git"; "docker"; "kubernetes"; "aws"; "jenkins"; "jira"; "webpack"].
Definition databaseCatalog : list string :=
  ["mongodb"; "postgresql"; "mysql"; "redis"; "elasticsearch"].

Definition analyzeTechnicalSkills (text : string) : Technical :=
  let programmingLanguages :=
    filter (fun lang => Str.includes (Str.toLowerCase text) lang)
           languageCatalog in
  let frameworks :=
    filter (fun fw => Str.includes (Str.toLowerCase text) fw)
           frameworkCatalog in
  let tools :=
    filter (fun tool => Str.includes (Str.toLowerCase text) tool)
           toolCatalog in
  let databases :=
    filter (fun db => Str.includes (Str.toLowerCase text) db)
           databaseCatalog in
  let totalSkills :=
    (List.length programmingLanguages + List.length frameworks +
     List.length tools + List.length databases)%nat in
  let score := JS.Math_min 100 (JS.of_nat totalSkills / 10 * 100)%float in
  {| programmingLanguages := programmingLanguages;
     frameworks := frameworks;
     tools := tools;
     databases := databases;
     tech_score := Some score |}.

Definition performATSAnalysis (text : string) : Analysis :=
  {| keywords := analyzeKeywords text;
     formatting := analyzeFormatting text;
     content := analyzeContent text;
     technical := analyzeTechnicalSkills text |}.

(** models/CVAnalysis.js, [generateSuggestions], as a function of the
    stored analysis. *)
Definition generateSuggestions (a : Analysis) : list Suggestion :=
  (if JS.lt (kw_score (keywords a)) (Some 70%float)
   then [ {| category := "keywords"; priority := "high";
             title := "Add Missing Keywords";
             description :=
               "Include these important keywords: " ++
               Str.join ", " (firstn 5 (missing (keywords a)));
             impact := 15 |} ]
   else []) ++
  (if negb (hasProperSections (formatting a))
   then [ {| category := "formatting"; priority := "high";
             title := "Improve CV Structure";
             description :=
               "Add clear sections: Contact Info, Summary, Experience, Skills, Education";
             impact := 12 |} ]
   else []) ++
  (if negb (hasQuantifiableAchievements (content a))
   then [ {| category := "content"; priority := "medium";
             title := "Add Quantifiable Achievements";
             description :=
               "Include numbers, percentages, and measurable results in your experience";
             impact := 10 |} ]
   else []) ++
  (if (List.length (programmingLanguages (technical a)) <? 3)%nat
   then [ {| category := "technical"; priority := "medium";
             title := "Expand Technical Skills";
             description :=
               "Add more relevant programming languages and frameworks";
             impact := 8 |} ]
   else []).

Definition generateOptimizedContent (d : CVAnalysis.t) : string :=
  let optimized := extractedText d in
  let missingKeywords := firstn 5 (missing (keywords (analysis d))) in
  let optimized :=
    if (0 <? List.length missingKeywords)%nat
    then optimized ++ Str.nl ++ Str.nl ++ "Additional Technical Skills: " ++
         Str.join ", " missingKeywords
    else optimized in
  let optimized :=
    if negb (hasSkillsSection (formatting (analysis d)))
    then optimized ++ Str.nl ++ Str.nl ++ "TECHNICAL SKILLS" ++ Str.nl ++
         Str.join ", " (programmingLanguages (technical (analysis d)))
    else optimized in
  optimized.

(** ** POST /analyze *)

(** The uploaded file; [parsed] is what [pdfParse] / [mammoth] extract,
    [None] when they throw. *)
Record File := {
  mimetype : string;
  originalname : string;
  size : Z;
  parsed : option string
}.

Record AnalyzeBody := {
  body_analysisId : Z;
  body_atsScore : float;
  body_analysis : Analysis;
  body_suggestions : list Suggestion;
  body_processingTime : Z;
  body_locked : bool
}.

(** State after a request: the collection, the requesting user as last
    saved, the upsell mails sent, and the response. *)
Record Outcome (A : Type) := {
  out_store : list CVAnalysis.t;
  out_user : User.t;
  out_mails : list string;
  out_response : Http.Response A
}.
Arguments out_store {A} o.
Arguments out_user {A} o.
Arguments out_mails {A} o.
Arguments out_response {A} o.

Definition refuse {A : Type} (store : list CVAnalysis.t) (user : User.t)
           (status : Z) (msg : string) : Outcome A :=
  {| out_store := store; out_user := user; out_mails := [];
     out_response := Http.Error status msg |}.

Definition emptyAnalysis : Analysis :=
  {| keywords := {| found := []; missing := []; kw_score := None |};
     formatting := {| hasProperSections := false; hasContactInfo := false;
                      hasSkillsSection := false;
                      hasExperienceSection := false; fmt_score := None |};
     content := {| hasQuantifiableAchievements := false;
                   hasRelevantExperience := false;
                   hasEducationSection := false; wordCount := 0;
                   cnt_score := None |};
     technical := {| programmingLanguages := []; frameworks := [];
                     tools := []; databases := []; tech_score := None |} |}.

(** The reduction applied to the loaded document for a free-plan user:
    [suggestions.slice(0, 2)], [missing.slice(0, 3)], [found.slice(0, 3)]
    and [locked = true]. *)
Definition truncateForFree (d : CVAnalysis.t) : CVAnalysis.t :=
  let a := analysis d in
  {| _id := _id d; userId := userId d;
     originalFileName := originalFileName d; fileType := fileType d;
     extractedText := extractedText d; atsScore := atsScore d;
     analysis :=
       {| keywords := {| found := firstn 3 (found (keywords a));
                         missing := firstn 3 (missing (keywords a));
                         kw_score := kw_score (keywords a) |};
          formatting := formatting a;
          content := content a;
          technical := technical a |};
     suggestions := firstn 2 (suggestions d);
     optimizedVersion := optimizedVersion d;
     comparisonData := comparisonData d; status := status d;
     processingTime := processingTime d; locked := true |}.

Definition set_analysis (d : CVAnalysis.t) (a : Analysis) : CVAnalysis.t :=
  {| _id := _id d; userId := userId d;
     originalFileName := originalFileName d; fileType := fileType d;
     extractedText := extractedText d; atsScore := atsScore d;
     analysis := a; suggestions := suggestions d;
     optimizedVersion := optimizedVersion d;
     comparisonData := comparisonData d; status := status d;
     processingTime := processingTime d; locked := locked d |}.

(** [generateSuggestions()], [status = 'completed'] and the processing
    time, set on the document in that order. *)
Definition set_completed (d : CVAnalysis.t) (sugg : list Suggestion)
           (elapsed : Z) : CVAnalysis.t :=
  {| _id := _id d; userId := userId d;
     originalFileName := originalFileName d; fileType := fileType d;
     extractedText := extractedText d; atsScore := atsScore d;
     analysis := analysis d; suggestions := sugg;
     optimizedVersion := optimizedVersion d;
     comparisonData := comparisonData d; status := "completed";
     processingTime := elapsed; locked := locked d |}.

(** The multer upload.  Its [fileFilter] refuses a file of another type
    with an error, and its [limits.fileSize] a file of more than 10 MB;
    Express answers either error with status 500 before the handler
    runs. *)
Definition fileFilter (f : File) : bool :=
  String.eqb (mimetype f) "application/pdf" ||
  String.eqb (mimetype f)
    "application/vnd.openxmlformats-officedocument.wordprocessingml.document".

Definition fileSizeLimit : Z := 10 * 1024 * 1024.

(** The handler behind [auth], [requirePlan(['one-time','basic','pro'])]
    and [upload.single('cv')].  [now] is the clock (one reading serves the
    middleware and the handler), [newId] the id given to the new document
    and [elapsed] the measured processing time. *)
Definition analyze (user : User.t) (now : Z) (file : option File)
           (newId elapsed : Z) (store : list CVAnalysis.t)
  : Outcome AnalyzeBody :=
  match Http.requirePlan ["one-time"; "basic"; "pro"] user now with
  | Some (status, msg) => refuse store user status msg
  | None =>
    match file with
    | None => refuse store user 400 "No file uploaded"
    | Some f =>
      if negb (fileFilter f)
      then refuse store user 500 "Only PDF and DOCX files are allowed"
      else if (fileSizeLimit <? size f)%Z
      then refuse store user 500 "File too large"
      else if negb (User.canPerformAction user now "cv_scan")
      then refuse store user 403 "CV scan limit reached for your plan"
      else
        let fileType :=
          if String.eqb (mimetype f) "application/pdf"
          then "pdf" else "docx" in
        match parsed f with
        | None =>
            refuse store user 400
              "Failed to parse file. Please ensure it's a valid PDF or DOCX file."
        | Some extractedText =>
          if Str.trim_is_empty extractedText
          then refuse store user 400 "No text content found in the file"
          else
            let created :=
              {| _id := newId; userId := User._id user;
                 originalFileName := originalname f; fileType := fileType;
                 extractedText := extractedText; atsScore := 0%float;
                 analysis := emptyAnalysis; suggestions := [];
                 optimizedVersion := None; comparisonData := None;
                 status := "analyzing"; processingTime := 0;
                 locked := false |} in
            let position := List.length store in
            let store := (store ++ [created])%list in
            let mails :=
              if String.eqb (User.plan user) "free"
              then [User.email user] else [] in
            let a := performATSAnalysis extractedText in
            let scored := fst (calculateATSScore (set_analysis created a)) in
            let completed :=
              set_completed scored (generateSuggestions (analysis scored))
                            elapsed in
            let store := Coll.update position completed store in
            let user :=
              User.set_cvScans user (User.cvScans (User.usage user) + 1) in
            let sent :=
              if String.eqb (User.plan user) "free"
              then truncateForFree completed else completed in
            {| out_store := store; out_user := user; out_mails := mails;
               out_response :=
                 Http.Ok {| body_analysisId := _id sent;
                            body_atsScore := atsScore sent;
                            body_analysis := analysis sent;
                            body_suggestions := suggestions sent;
                            body_processingTime := processingTime sent;
                            body_locked := locked sent || false |} |}
        end
    end
  end.

(** ** GET /analysis/:id *)

Definition byIdAndOwner (id owner : Z) (d : CVAnalysis.t) : bool :=
  (_id d =? id)%Z && (userId d =? owner)%Z.

(** What [res.json(document)] sends: the document's [toJSON], which
    holds the paths of the schema (those of the model here; the time
    stamps and the version key are left out of the model).  A property
    that is not a path of the schema, as [locked], is not part of it. *)
Record Json := {
  json_id : Z;
  json_userId : Z;
  json_originalFileName : string;
  json_fileType : string;
  json_extractedText : string;
  json_atsScore : float;
  json_analysis : Analysis;
  json_suggestions : list Suggestion;
  json_optimizedVersion : option (string * Z);
  json_comparisonData : option ComparisonData;
  json_status : string;
  json_processingTime : Z
}.

Definition toJSON (d : CVAnalysis.t) : Json :=
  {| json_id := _id d; json_userId := userId d;
     json_originalFileName := originalFileName d;
     json_fileType := fileType d;
     json_extractedText := extractedText d;
     json_atsScore := atsScore d;
     json_analysis := analysis d;
     json_suggestions := suggestions d;
     json_optimizedVersion := optimizedVersion d;
     json_comparisonData := comparisonData d;
     json_status := status d;
     json_processingTime := processingTime d |}.

(** Behind [auth] only; nothing is saved, the response is
    [res.json(analysis)] of the loaded document. *)
Definition getAnalysis (user : User.t) (id : Z) (store : list CVAnalysis.t)
  : Outcome Json :=
  match Coll.findOne (byIdAndOwner id (User._id user)) store with
  | None => refuse store user 404 "Analysis not found"
  | Some (_, d) =>
      let loaded :=
        if String.eqb (User.plan user) "free"
        then truncateForFree d else d in
      {| out_store := store; out_user := user; out_mails := [];
         out_response := Http.Ok (toJSON loaded) |}
  end.

(** ** GET /compare/:id *)

Record CompareBody := {
  cmp_beforeScore : float;
  cmp_afterScore : float;
  cmp_improvement : float;
  cmp_improvements : list string;
  cmp_beforeAnalysis : Analysis;
  cmp_afterAnalysis : Analysis
}.

Definition afterScoreOf (afterAnalysis : Analysis) : float :=
  JS.Math_round
    (JS.ToNumber (kw_score (keywords afterAnalysis)) * 0.35 +
     JS.ToNumber (fmt_score (formatting afterAnalysis)) * 0.25 +
     JS.ToNumber (cnt_score (content afterAnalysis)) * 0.25 +
     JS.ToNumber (tech_score (technical afterAnalysis)) * 0.15)%float.

Definition improvementsOf (before afterAnalysis : Analysis) : list string :=
  (if JS.gt (kw_score (keywords afterAnalysis)) (kw_score (keywords before))
   then ["Improved keyword optimization"] else []) ++
  (if JS.gt (cnt_score (content afterAnalysis)) (cnt_score (content before))
   then ["Enhanced content quality"] else []) ++
  (if JS.gt (tech_score (technical afterAnalysis))
            (tech_score (technical before))
   then ["Better technical skills presentation"] else []).

Definition set_comparisonData (d : CVAnalysis.t) (c : ComparisonData)
  : CVAnalysis.t :=
  {| _id := _id d; userId := userId d;
     originalFileName := originalFileName d; fileType := fileType d;
     extractedText := extractedText d; atsScore := atsScore d;
     analysis := analysis d; suggestions := suggestions d;
     optimizedVersion := optimizedVersion d;
     comparisonData := Some c; status := status d;
     processingTime := processingTime d; locked := locked d |}.

(** The optimized text, when there is a non-empty one. *)
Definition optimizedText (d : CVAnalysis.t) : option string :=
  match optimizedVersion d with
  | Some (text, _) => if String.eqb text EmptyString then None else Some text
  | None => None
  end.

(** Behind [auth] and [requirePlan(['pro'])]. *)
Definition compare (user : User.t) (now : Z) (id : Z)
           (store : list CVAnalysis.t) : Outcome CompareBody :=
  match Http.requirePlan ["pro"] user now with
  | Some (status, msg) => refuse store user status msg
  | None =>
    match Coll.findOne (byIdAndOwner id (User._id user)) store with
    | None => refuse store user 404 "Analysis not found"
    | Some (position, d) =>
      match optimizedText d with
      | None =>
          refuse store user 400
            "Optimized version not available. Please optimize first."
      | Some text =>
          let beforeScore := atsScore d in
          let afterAnalysis := performATSAnalysis text in
          let afterScore := afterScoreOf afterAnalysis in
          let improvements := improvementsOf (analysis d) afterAnalysis in
          let saved :=
            set_comparisonData d
              {| beforeScore := beforeScore; afterScore := afterScore;
                 improvements := improvements |} in
          {| out_store := Coll.update position saved store;
             out_user := user; out_mails := [];
             out_response :=
               Http.Ok {| cmp_beforeScore := beforeScore;
                          cmp_afterScore := afterScore;
                          cmp_improvement := (afterScore - beforeScore)%float;
                          cmp_improvements := improvements;
                          cmp_beforeAnalysis := analysis d;
                          cmp_afterAnalysis := afterAnalysis |} |}
      end
    end
  end.

(** ** POST /optimize/:id, behind [auth] and [requirePlan(['basic','pro'])];
    [now] also stamps [generatedAt]. *)
Definition set_optimizedVersion (d : CVAnalysis.t) (v : string * Z)
  : CVAnalysis.t :=
  {| _id := _id d; userId := userId d;
     originalFileName := originalFileName d; fileType := fileType d;
     extractedText := extractedText d; atsScore := atsScore d;
     analysis := analysis d; suggestions := suggestions d;
     optimizedVersion := Some v;
     comparisonData := comparisonData d; status := status d;
     processingTime := processingTime d; locked := locked d |}.

Definition optimize (user : User.t) (now : Z) (id : Z)
           (store : list CVAnalysis.t) : Outcome string :=
  match Http.requirePlan ["basic"; "pro"] user now with
  | Some (status, msg) => refuse store user status msg
  | None =>
    match Coll.findOne (byIdAndOwner id (User._id user)) store with
    | None => refuse store user 404 "Analysis not found"
    | Some (position, d) =>
      match optimizedText d with
      | Some text =>
          {| out_store := store; out_user := user; out_mails := [];
             out_response := Http.Ok text |}
      | None =>
          let optimizedContent := generateOptimizedContent d in
          {| out_store :=
               Coll.update position
                 (set_optimizedVersion d (optimizedContent, now)) store;
             out_user := user; out_mails := [];
             out_response := Http.Ok optimizedContent |}
      end
    end
  end.

End CvRoutes.

(* ================================================================== *)
(** * routes/linkedin.js *)
(* ================================================================== *)

Module LinkedinRoutes.

Import LinkedInAnalysis.
Local Open Scope string_scope.

Definition re_headline_keywords : Regex.t :=
  Regex.alts [Regex.lit "developer"; Regex.lit "engineer";
              Regex.lit "programmer"; Regex.lit "software";
              Regex.lit "technical"; Regex.lit "react";
              Regex.lit "javascript"; Regex.lit "python"; Regex.lit "java"].
Definition re_compelling : Regex.t :=
  Regex.alts [Regex.Chr "|"; Regex.lit "at"; Regex.lit "specializing";
              Regex.lit "expert"].

Definition analyzeHeadline (headline : string) : Headline :=
  let hasKeywords := Regex.test_i re_headline_keywords headline in
  let isCompelling :=
    (20 <? Str.length headline)%Z && Regex.test_i re_compelling headline in
  let length := Str.length headline in
  let score := 0%float in
  let score := if hasKeywords then (score + 40)%float else score in
  let score := if isCompelling then (score + 30)%float else score in
  let score :=
    if ((50 <=? length) && (length <=? 120))%Z
    then (score + 30)%float else score in
  {| hl_hasKeywords := hasKeywords; hl_isCompelling := isCompelling;
     hl_length := length; hl_score := Some score |}.

Definition re_call_to_action : Regex.t :=
  Regex.alts [Regex.lit "contact"; Regex.lit "connect";
              Regex.lit "reach out"; Regex.lit "let's talk"].
Definition re_summary_keywords : Regex.t :=
  Regex.alts [Regex.lit "developer"; Regex.lit "engineer";
              Regex.lit "experience"; Regex.lit "skilled";
              Regex.lit "expert"; Regex.lit "passionate"].
Definition re_summary_achievements : Regex.t :=
  Regex.alts [Regex.Cat (Regex.Plus Regex.Digit) (Regex.Chr "%");
              Regex.Cat (Regex.Plus Regex.Digit) (Regex.lit " years");
              Regex.lit "increased"; Regex.lit "improved";
              Regex.lit "built"; Regex.lit "developed"].

Definition analyzeSummary (summary : string) : Summary :=
  let hasCallToAction := Regex.test_i re_call_to_action summary in
  let hasKeywords := Regex.test_i re_summary_keywords summary in
  let hasAchievements := Regex.test_i re_summary_achievements summary in
  let length := Str.length summary in
  let score := 0%float in
  let score := if hasCallToAction then (score + 20)%float else score in
  let score := if hasKeywords then (score + 30)%float else score in
  let score := if hasAchievements then (score + 30)%float else score in
  let score :=
    if ((200 <=? length) && (length <=? 2000))%Z
    then (score + 20)%float else score in
  {| sm_hasCallToAction := hasCallToAction; sm_hasKeywords := hasKeywords;
     sm_hasAchievements := hasAchievements; sm_length := length;
     sm_score := Some score |}.

Definition re_results : Regex.t :=
  Regex.alts [Regex.Cat (Regex.Plus Regex.Digit) (Regex.Chr "%");
              Regex.Cat (Regex.Plus Regex.Digit) (Regex.Chr "+");
              Regex.lit "increased"; Regex.lit "improved";
              Regex.lit "reduced";
              Regex.Cat (Regex.lit "built ") (Regex.Plus Regex.Digit)].
Definition re_title_keywords : Regex.t :=
  Regex.alts [Regex.lit "developer"; Regex.lit "engineer";
              Regex.lit "software"; Regex.lit "technical";
              Regex.lit "programming"].

(** [x || ''] on a possibly absent string. *)
Definition or_empty (x : option string) : string :=
  match x with
  | Some s => s
  | None => EmptyString
  end.

(** Truthiness of a possibly absent string. *)
Definition present (x : option string) : bool :=
  match x with
  | Some s => negb (String.eqb s EmptyString)
  | None => false
  end.

Definition analyzeExperience (experience : list ExperienceItem)
  : Experience :=
  let hasQuantifiableResults :=
    existsb (fun exp => Regex.test_i re_results
                                     (or_empty (exp_description exp)))
            experience in
  let hasRelevantKeywords :=
    existsb (fun exp => Regex.test_i re_title_keywords
                                     (or_empty (exp_title exp)))
            experience in
  let isWellStructured :=
    (0 <? List.length experience)%nat &&
    forallb (fun exp => present (exp_title exp) &&
                        present (exp_company exp) &&
                        present (exp_duration exp))
            experience in
  let count := Z.of_nat (List.length experience) in
  let score := 0%float in
  let score := if hasQuantifiableResults then (score + 30)%float else score in
  let score := if hasRelevantKeywords then (score + 30)%float else score in
  let score := if isWellStructured then (score + 25)%float else score in
  let score := if (2 <=? count)%Z then (score + 15)%float else score in
  {| ex_hasQuantifiableResults := hasQuantifiableResults;
     ex_hasRelevantKeywords := hasRelevantKeywords;
     ex_isWellStructured := isWellStructured;
     ex_count := count; ex_score := Some score |}.

Definition techSkills : list string :=
  ["javascript"; "python"; "java"; "react"; "node.js"; "angular"; "vue";
   "typescript"].

Definition analyzeSkills (skills : list string) : Skills :=
  let hasRelevantSkills :=
    existsb (fun skill =>
               existsb (fun tech => Str.includes (Str.toLowerCase skill) tech)
                       techSkills)
            skills in
  let hasTechnicalSkills := (5 <=? List.length skills)%nat in
  let count := Z.of_nat (List.length skills) in
  let score := 0%float in
  let score := if hasRelevantSkills then (score + 40)%float else score in
  let score := if hasTechnicalSkills then (score + 30)%float else score in
  let score := if (10 <=? count)%Z then (score + 30)%float else score in
  {| sk_hasRelevantSkills := hasRelevantSkills;
     sk_hasTechnicalSkills := hasTechnicalSkills;
     sk_count := count; sk_score := Some score |}.

Definition analyzeEngagement (profileData : ProfileData) : Engagement :=
  let hasRecentActivity := true in
  let hasRecommendations := true in
  let connectionCount := JS.or_default (pd_connections profileData) 0 in
  let score := 0%float in
  let score := if hasRecentActivity then (score + 30)%float else score in
  let score := if hasRecommendations then (score + 30)%float else score in
  let score :=
    if PrimFloat.leb 500 connectionCount then (score + 40)%float
    else if PrimFloat.leb 100 connectionCount then (score + 20)%float
    else score in
  {| en_hasRecentActivity := hasRecentActivity;
     en_hasRecommendations := hasRecommendations;
     en_connectionCount := connectionCount; en_score := Some score |}.

Definition performLinkedInAnalysis (profileData : ProfileData) : Analysis :=
  {| headline := analyzeHeadline (or_empty (pd_headline profileData));
     summary := analyzeSummary (or_empty (pd_summary profileData));
     experience := analyzeExperience (pd_experience profileData);
     skills := analyzeSkills (pd_skills profileData);
     engagement := analyzeEngagement profileData |}.

(** The profile with nothing in it. *)
Definition emptyProfile : ProfileData :=
  {| pd_headline := None; pd_summary := None; pd_experience := [];
     pd_skills := []; pd_education := []; pd_connections := None;
     pd_profileViews := None |}.

(** ** GET /compare/:id *)

Record CompareBody := {
  cmp_beforeScore : float;
  cmp_afterScore : float;
  cmp_improvement : float;
  cmp_improvements : list string;
  cmp_beforeAnalysis : Analysis;
  cmp_afterAnalysis : Analysis
}.

Definition afterScoreOf (afterAnalysis : Analysis) : float :=
  JS.Math_round
    (JS.ToNumber (hl_score (headline afterAnalysis)) * 0.25 +
     JS.ToNumber (sm_score (summary afterAnalysis)) * 0.25 +
     JS.ToNumber (ex_score (experience afterAnalysis)) * 0.25 +
     JS.ToNumber (sk_score (skills afterAnalysis)) * 0.15 +
     JS.ToNumber (en_score (engagement afterAnalysis)) * 0.10)%float.

Definition improvementsOf (before afterAnalysis : Analysis) : list string :=
  (if JS.gt (hl_score (headline afterAnalysis)) (hl_score (headline before))
   then ["Improved headline optimization"] else []) ++
  (if JS.gt (sm_score (summary afterAnalysis)) (sm_score (summary before))
   then ["Enhanced summary content"] else []) ++
  (if JS.gt (sk_score (skills afterAnalysis)) (sk_score (skills before))
   then ["Better skills presentation"] else []).

(** [{...profileData, headline, summary}] *)
Definition optimizedProfileData (d : LinkedInAnalysis.t)
           (oc : OptimizedContent) : ProfileData :=
  {| pd_headline := Some (oc_headline oc);
     pd_summary := Some (oc_summary oc);
     pd_experience := pd_experience (profileData d);
     pd_skills := pd_skills (profileData d);
     pd_education := pd_education (profileData d);
     pd_connections := pd_connections (profileData d);
     pd_profileViews := pd_profileViews (profileData d) |}.

(** The optimized content, when it has a non-empty headline. *)
Definition usableContent (d : LinkedInAnalysis.t) : option OptimizedContent :=
  match optimizedContent d with
  | Some oc => if String.eqb (oc_headline oc) EmptyString then None else Some oc
  | None => None
  end.

Definition set_comparisonData (d : LinkedInAnalysis.t) (c : ComparisonData)
  : LinkedInAnalysis.t :=
  {| _id := _id d; userId := userId d; profileUrl := profileUrl d;
     profileData := profileData d;
     optimizationScore := optimizationScore d;
     analysis := analysis d; optimizedContent := optimizedContent d;
     comparisonData := Some c; status := status d |}.

Definition set_analysis (d : LinkedInAnalysis.t) (a : Analysis)
  : LinkedInAnalysis.t :=
  {| _id := _id d; userId := userId d; profileUrl := profileUrl d;
     profileData := profileData d;
     optimizationScore := optimizationScore d;
     analysis := a; optimizedContent := optimizedContent d;
     comparisonData := comparisonData d; status := status d |}.

Definition byIdAndOwner (id owner : Z) (d : LinkedInAnalysis.t) : bool :=
  (_id d =? id)%Z && (userId d =? owner)%Z.

(** Behind [auth] and [requirePlan(['pro'])]: the collection afterwards
    and the response. *)
Definition compare (user : User.t) (now : Z) (id : Z)
           (store : list LinkedInAnalysis.t)
  : list LinkedInAnalysis.t * Http.Response CompareBody :=
  match Http.requirePlan ["pro"] user now with
  | Some (status, msg) => (store, Http.Error status msg)
  | None =>
    match Coll.findOne (byIdAndOwner id (User._id user)) store with
    | None => (store, Http.Error 404 "Analysis not found")
    | Some (position, d) =>
      match usableContent d with
      | None =>
          (store,
           Http.Error 400
             "Optimized content not available. Please optimize first.")
      | Some oc =>
          let beforeScore := optimizationScore d in
          let afterAnalysis :=
            performLinkedInAnalysis (optimizedProfileData d oc) in
          let afterScore := afterScoreOf afterAnalysis in
          let improvements := improvementsOf (analysis d) afterAnalysis in
          let saved :=
            set_comparisonData d
              {| beforeScore := beforeScore; afterScore := afterScore;
                 improvements := improvements |} in
          (Coll.update position saved store,
           Http.Ok {| cmp_beforeScore := beforeScore;
                      cmp_afterScore := afterScore;
                      cmp_improvement := (afterScore - beforeScore)%float;
                      cmp_improvements := improvements;
                      cmp_beforeAnalysis := analysis d;
                      cmp_afterAnalysis := afterAnalysis |})
      end
    end
  end.

End LinkedinRoutes.

(* ================================================================== *)
(** * routes/payments.js: webhook handlers *)
(* ================================================================== *)

Module Payments.

Local Open Scope string_scope.

(** The fields of the Payment model that the handlers touch. *)
Record Payment := {
  lemonSqueezyOrderId : string;
  lemonSqueezyCustomerId : string;
  lemonSqueezySubscriptionId : option string;
  subscriptionStatus : option string;
  currentPeriodStart : option Z;
  currentPeriodEnd : option Z
}.

Record DB := {
  users : list User.t;
  payments : list Payment
}.

(** [event.data] of a webhook: [id] and the attributes the handlers read.
    Dates are already parsed to milliseconds. *)
Record EventData := {
  id : string;
  user_email : string;
  customer_id : string;
  variant_id : string;
  status : string;
  renews_at : Z;
  created_at : Z;
  subscription_id : string
}.

(** [Model.findOneAndUpdate(query, update)] *)
Definition findOneAndUpdate {A : Type} (q : A -> bool) (f : A -> A)
           (l : list A) : list A :=
  match Coll.findOne q l with
  | Some (i, x) => Coll.update i (f x) l
  | None => l
  end.

(** [user.save()] in a handler that has assigned [plan] or [planStatus]:
    the document is written when the [enum] validators pass; otherwise
    [save] throws, which every handler catches and logs. *)
Definition save (i : nat) (u : User.t) (l : list User.t)
  : option (list User.t) :=
  if User.validate u then Some (Coll.update i u l) else None.

(** How a call ends: it returns a value or it throws. *)
Inductive Completion (A : Type) :=
| Return (value : A)
| Throw (error : string).
Arguments Return {A} value.
Arguments Throw {A} error.

(** [getPlanFromVariantId] begins by building an object whose first
    computed key is [PRODUCT_VARIANTS['one-time']].  payments.js neither
    declares nor imports [PRODUCT_VARIANTS] (the only table it declares is
    [PRICE_IDS]), so reading it throws a ReferenceError for every
    argument, before the lookup [variantMap[variantId] || 'one-time'] is
    reached. *)
Definition getPlanFromVariantId (variantId : string) : Completion string :=
  Throw "ReferenceError: PRODUCT_VARIANTS is not defined".

Definition byEmail (e : string) (u : User.t) : bool :=
  String.eqb (User.email u) e.

Definition bySubscriptionId (sid : string) (u : User.t) : bool :=
  match User.subscriptionId u with
  | Some s => String.eqb s sid
  | None => false
  end.

(** Every handler runs inside [try]/[catch]: whatever is thrown is logged
    and the handler returns, the database being as the statements already
    executed left it. *)
Definition handleSubscriptionCreated (db : DB) (data : EventData) : DB :=
  let customerEmail := user_email data in
  let subscriptionId := id data in
  let customerId := customer_id data in
  let variantId := variant_id data in
  let status := status data in
  match Coll.findOne (byEmail customerEmail) (users db) with
  | None => db
  | Some (i, user) =>
      match getPlanFromVariantId variantId with
      | Throw _ => db
      | Return plan =>
          let user := User.set_plan user plan in
          let user :=
            User.set_planStatus user
              (if String.eqb status "active" then "active" else "pending") in
          let user := User.set_subscriptionId user (Some subscriptionId) in
          let user := User.set_customerId user (Some customerId) in
          let user := User.set_planExpiresAt user (Some (renews_at data)) in
          let user := User.set_cvScans user 0 in
          let user := User.set_linkedinScans user 0 in
          match save i user (users db) with
          | None => db
          | Some users' =>
              {| users := users';
                 payments :=
                   findOneAndUpdate
                     (fun p => String.eqb (lemonSqueezyCustomerId p) customerId)
                     (fun p =>
                        {| lemonSqueezyOrderId := lemonSqueezyOrderId p;
                           lemonSqueezyCustomerId := lemonSqueezyCustomerId p;
                           lemonSqueezySubscriptionId := Some subscriptionId;
                           subscriptionStatus := Some status;
                           currentPeriodStart := Some (created_at data);
                           currentPeriodEnd := Some (renews_at data) |})
                     (payments db) |}
          end
      end
  end.

Definition setSubscriptionStatus (sid st : string)
           (l : list Payment) : list Payment :=
  findOneAndUpdate
    (fun p => match lemonSqueezySubscriptionId p with
              | Some s => String.eqb s sid
              | None => false
              end)
    (fun p =>
       {| lemonSqueezyOrderId := lemonSqueezyOrderId p;
          lemonSqueezyCustomerId := lemonSqueezyCustomerId p;
          lemonSqueezySubscriptionId := lemonSqueezySubscriptionId p;
          subscriptionStatus := Some st;
          currentPeriodStart := currentPeriodStart p;
          currentPeriodEnd := currentPeriodEnd p |})
    l.

Definition handleSubscriptionExpired (db : DB) (data : EventData) : DB :=
  let subscriptionId := id data in
  match Coll.findOne (bySubscriptionId subscriptionId) (users db) with
  | None => db
  | Some (i, user) =>
      let user := User.set_plan user "free" in
      let user := User.set_planStatus user "expired" in
      match save i user (users db) with
      | None => db
      | Some users' =>
          {| users := users';
             payments :=
               setSubscriptionStatus subscriptionId "expired"
                                     (payments db) |}
      end
  end.

Definition handleSubscriptionPaymentFailed (db : DB) (data : EventData)
  : DB :=
  let subscriptionId := subscription_id data in
  match Coll.findOne (bySubscriptionId subscriptionId) (users db) with
  | None => db
  | Some (i, user) =>
      let user := User.set_planStatus user "past_due" in
      match save i user (users db) with
      | None => db
      | Some users' => {| users := users'; payments := payments db |}
      end
  end.

(** What a completed scan does to the account at position [i]:
    [user.usage.cvScans += 1] (or [linkedinScans]) and [user.save()]. *)
Inductive Scan := CvScan (i : nat) | LinkedinScan (i : nat).

Definition recordScan (db : DB) (s : Scan) : DB :=
  match s with
  | CvScan i =>
      match nth_error (users db) i with
      | Some u =>
          {| users :=
               Coll.update i
                 (User.set_cvScans u (User.cvScans (User.usage u) + 1))
                 (users db);
             payments := payments db |}
      | None => db
      end
  | LinkedinScan i =>
      match nth_error (users db) i with
      | Some u =>
          {| users :=
               Coll.update i
                 (User.set_linkedinScans u
                    (User.linkedinScans (User.usage u) + 1))
                 (users db);
             payments := payments db |}
      | None => db
      end
  end.

Definition recordScans (db : DB) (l : list Scan) : DB :=
  fold_left recordScan l db.

(** The two usage counters of the account with the given e-mail. *)
Definition countersOf (e : string) (db : DB) : option (Z * Z) :=
  match Coll.findOne (byEmail e) (users db) with
  | Some (_, u) =>
      Some (User.cvScans (User.usage u), User.linkedinScans (User.usage u))
  | None => None
  end.

End Payments.



(* ================================================================== *)
(** * Auxiliary predicates *)
(* ================================================================== *)


(** A score that is a present number in range and unchanged by [|| 0]. *)
Definition plain_score (x : JS.number) : Prop :=
  exists s, x = Some s /\ JS.in_0_100 s = true /\ JS.or_default x 0 = s.

(* ================================================================== *)
(** * Sample data *)
(* ================================================================== *)

(** A basic-plan account with four résumé scans used, valid until 2000. *)
Definition basicUser : User.t :=
  {| User._id := 1; User.email := "a@b.com"; User.firstName := "A";
     User.lastName := "B"; User.plan := "basic"; User.planStatus := "active";
     User.subscriptionId := Some "sub_1"%string;
     User.customerId := Some "cus_1"%string;
     User.planExpiresAt := Some 2000;
     User.usage := {| User.cvScans := 4; User.linkedinScans := 5;
                      User.monthlyResetDate := 0 |} |}.

(** A pro account whose subscription is "sub_1". *)
Definition proDb : Payments.DB :=
  {| Payments.users := [User.set_plan basicUser "pro"];
     Payments.payments := [] |}.

Definition eventFor (sid : string) : Payments.EventData :=
  {| Payments.id := sid; Payments.user_email := "a@b.com";
     Payments.customer_id := "cus_1"; Payments.variant_id := "v_pro";
     Payments.status := "active"; Payments.renews_at := 5000;
     Payments.created_at := 100; Payments.subscription_id := sid |}.

Definition proUser : User.t := User.set_plan basicUser "pro".


(** A résumé that names twenty-one catalog keywords and sixteen technical
    skills but has no contact, skills or experience heading. *)
Definition sampleText : string :=
  "Developer: javascript python java react node.js angular vue typescript html css sql mongodb postgresql mysql aws docker kubernetes git agile scrum".

Definition sampleFile : CvRoutes.File :=
  {| CvRoutes.mimetype := "application/pdf"; CvRoutes.originalname := "cv.pdf";
     CvRoutes.size := 154; CvRoutes.parsed := Some sampleText |}.

(** Analyze, then optimize, then compare, for the pro account. *)
Definition afterAnalyze : CvRoutes.Outcome CvRoutes.AnalyzeBody :=
  CvRoutes.analyze proUser 1000 (Some sampleFile) 7 12 [].

Definition afterOptimize : CvRoutes.Outcome string :=
  CvRoutes.optimize (CvRoutes.out_user afterAnalyze) 1000 7
                    (CvRoutes.out_store afterAnalyze).


(** The stored résumé analysis after optimize. *)
Definition sampleCv : CVAnalysis.t :=
  Eval vm_compute in
    match CvRoutes.out_store afterOptimize with
    | d :: _ => d
    | [] =>
        CvRoutes.set_analysis
          {| CVAnalysis._id := 0; CVAnalysis.userId := 0;
             CVAnalysis.originalFileName := EmptyString;
             CVAnalysis.fileType := EmptyString;
             CVAnalysis.extractedText := EmptyString;
             CVAnalysis.atsScore := 0%float;
             CVAnalysis.analysis := CvRoutes.emptyAnalysis;
             CVAnalysis.suggestions := [];
             CVAnalysis.optimizedVersion := None;
             CVAnalysis.comparisonData := None;
             CVAnalysis.status := EmptyString;
             CVAnalysis.processingTime := 0;
             CVAnalysis.locked := false |} CvRoutes.emptyAnalysis
    end.

(** The profile that [extractLinkedInData] returns. *)
Definition mockProfile : LinkedInAnalysis.ProfileData :=
  {| LinkedInAnalysis.pd_headline := Some "Software Developer at Tech Company"%string;
     LinkedInAnalysis.pd_summary :=
       Some "Experienced software developer with 3+ years in web development. Skilled in JavaScript, React, and Node.js."%string;
     LinkedInAnalysis.pd_experience :=
       [ {| LinkedInAnalysis.exp_title := Some "Software Developer"%string;
            LinkedInAnalysis.exp_company := Some "Tech Company"%string;
            LinkedInAnalysis.exp_duration := Some "2021 - Present"%string;
            LinkedInAnalysis.exp_description :=
              Some "Developed web applications using React and Node.js"%string |} ];
     LinkedInAnalysis.pd_skills :=
       ["JavaScript"; "React"; "Node.js"; "HTML"; "CSS"]%string;
     LinkedInAnalysis.pd_education :=
       [ {| LinkedInAnalysis.edu_school := Some "University"%string;
            LinkedInAnalysis.edu_degree := Some "Bachelor's"%string;
            LinkedInAnalysis.edu_field := Some "Computer Science"%string |} ];
     LinkedInAnalysis.pd_connections := Some 250%float;
     LinkedInAnalysis.pd_profileViews := Some 45%float |}.

(** A stored profile analysis of [mockProfile] with optimized content. *)
Definition sampleLinkedin : LinkedInAnalysis.t :=
  fst (LinkedInAnalysis.calculateOptimizationScore
         {| LinkedInAnalysis._id := 7; LinkedInAnalysis.userId := 1;
            LinkedInAnalysis.profileUrl := "https://www.linkedin.com/in/a";
            LinkedInAnalysis.profileData := mockProfile;
            LinkedInAnalysis.optimizationScore := 0%float;
            LinkedInAnalysis.analysis :=
              LinkedinRoutes.performLinkedInAnalysis mockProfile;
            LinkedInAnalysis.optimizedContent :=
              Some {| LinkedInAnalysis.oc_headline :=
                        "Full-Stack Developer | JavaScript, React, Node.js | Building Scalable Web Applications";
                      LinkedInAnalysis.oc_summary :=
                        "Passionate software developer with 1+ years of experience in web development. Let's connect to discuss opportunities in software development!";
                      LinkedInAnalysis.oc_skillsToAdd :=
                        ["Problem Solving"; "Team Collaboration"]%string |};
            LinkedInAnalysis.comparisonData := None;
            LinkedInAnalysis.status := "completed" |}).

(* ================================================================== *)
(** * Facts about collections *)
(* ================================================================== *)

Section CollFacts.
Context {A : Type}.
Variable q : A -> bool.

Lemma findIndex_sound (l : list A) (i : nat) :
  Coll.findIndex q l = Some i ->
  exists x, nth_error l i = Some x /\ q x = true.
Proof.
  revert i. induction l as [|y r IH]; intros i H; simpl in H.
  - discriminate.
  - destruct (q y) eqn:Hy.
    + inversion H; subst. exists y. split; [reflexivity | assumption].
    + destruct (Coll.findIndex q r) as [j|] eqn:Hj; [|discriminate].
      inversion H; subst. simpl. apply IH. reflexivity.
Qed.

Lemma findOne_sound (l : list A) (i : nat) (x : A) :
  Coll.findOne q l = Some (i, x) ->
  Coll.findIndex q l = Some i /\ nth_error l i = Some x /\ q x = true.
Proof.
  unfold Coll.findOne. intros H.
  destruct (Coll.findIndex q l) as [j|] eqn:Hj; [|discriminate].
  destruct (findIndex_sound l j Hj) as [y [Hn Hq]].
  rewrite Hn in H. inversion H; subst. auto.
Qed.

Lemma nth_error_update (l : list A) (i : nat) (x y : A) :
  nth_error l i = Some y -> nth_error (Coll.update i x l) i = Some x.
Proof.
  revert i. induction l as [|z r IH]; intros [|i] H; simpl in *;
    try discriminate; auto.
Qed.

(** Saving at position [i] a document that answers the query like the
    one it replaces does not move the first match. *)
Lemma findIndex_update (l : list A) (i : nat) (x y : A) :
  nth_error l i = Some y -> q x = q y ->
  Coll.findIndex q (Coll.update i x l) = Coll.findIndex q l.
Proof.
  revert i. induction l as [|z r IH]; intros [|i] H E; simpl in *;
    try discriminate.
  - inversion H; subst. rewrite E. reflexivity.
  - rewrite (IH i H E). reflexivity.
Qed.

Lemma findOne_update_same (l : list A) (i : nat) (x y : A) :
  Coll.findOne q l = Some (i, y) -> q x = true ->
  Coll.findOne q (Coll.update i x l) = Some (i, x).
Proof.
  intros H Hx. destruct (findOne_sound l i y H) as [Hi [Hn Hy]].
  unfold Coll.findOne.
  rewrite (findIndex_update l i x y Hn) by congruence.
  rewrite Hi, (nth_error_update l i x y Hn). reflexivity.
Qed.

Lemma findOne_update_other (l : list A) (i j : nat) (x y z : A) :
  Coll.findOne q l = Some (i, y) ->
  nth_error l j = Some z -> q x = q z ->
  exists y', Coll.findOne q (Coll.update j x l) = Some (i, y') /\
             (j <> i -> y' = y) /\ (j = i -> y' = x).
Proof.
  intros H Hz E. destruct (findOne_sound l i y H) as [Hi [Hn Hy]].
  unfold Coll.findOne. rewrite (findIndex_update l j x z Hz E), Hi.
  destruct (Nat.eq_dec j i) as [->|Hne].
  - rewrite (nth_error_update l i x z Hz). exists x. intuition congruence.
  - assert (Hk : nth_error (Coll.update j x l) i = Some y).
    { clear - Hn Hne. revert i j Hn Hne.
      induction l as [|w r IH]; intros [|i] [|j] Hn Hne; simpl in *;
        try discriminate; try congruence; auto. }
    rewrite Hk. exists y. intuition congruence.
Qed.
End CollFacts.

(* ================================================================== *)
(** * The plan gate *)
(* ================================================================== *)

Lemma not_expired_guard (u : User.t) (now : Z) :
  ~ User.expired u now ->
  match User.planExpiresAt u with
  | Some e => e <? now
  | None => false
  end = false.
Proof.
  intros H. destruct (User.planExpiresAt u) as [e|] eqn:He; [|reflexivity].
  apply Z.ltb_ge. destruct (Z.lt_ge_cases e now) as [Hlt|Hge]; [|assumption].
  exfalso. apply H. exists e. split; [exact He | exact Hlt].
Qed.

(** C2. For a user whose plan has not expired, the gate on a scan action
    denies on the free plan, allows on one-time exactly while the matching
    counter is below 1, allows on basic exactly while it is below 5, and
    always allows on pro, whatever the counters. *)
Theorem gate_scan_by_plan (u : User.t) (now : Z) :
  ~ User.expired u now ->
  (User.plan u = "free"%string ->
     User.canPerformAction u now "cv_scan" = false /\
     User.canPerformAction u now "linkedin_scan" = false) /\
  (User.plan u = "one-time"%string ->
     (User.canPerformAction u now "cv_scan" = true <->
        User.cvScans (User.usage u) < 1) /\
     (User.canPerformAction u now "linkedin_scan" = true <->
        User.linkedinScans (User.usage u) < 1)) /\
  (User.plan u = "basic"%string ->
     (User.canPerformAction u now "cv_scan" = true <->
        User.cvScans (User.usage u) < 5) /\
     (User.canPerformAction u now "linkedin_scan" = true <->
        User.linkedinScans (User.usage u) < 5)) /\
  (User.plan u = "pro"%string ->
     User.canPerformAction u now "cv_scan" = true /\
     User.canPerformAction u now "linkedin_scan" = true).
Proof.
  intros H. pose proof (not_expired_guard u now H) as G.
  unfold User.canPerformAction. rewrite G.
  repeat split; intros; try match goal with
    | E : User.plan u = _ |- _ => rewrite E in *; simpl in *
    end; try reflexivity;
    try (apply Z.ltb_lt; assumption);
    try (apply Z.ltb_lt; match goal with
         | E : User.plan u = _ |- _ => rewrite E in *; simpl in *; assumption
         end).
Qed.

Lemma basicUser_not_expired : ~ User.expired basicUser 1000.
Proof.
  intros [e [He Hlt]]. simpl in He. inversion He; subst. lia.
Defined.

Lemma gate_scan_by_plan_witness :
  (User.canPerformAction basicUser 1000 "cv_scan" = true <->
     User.cvScans (User.usage basicUser) < 5) /\
  (User.canPerformAction basicUser 1000 "linkedin_scan" = true <->
     User.linkedinScans (User.usage basicUser) < 5).
Proof.
  apply (gate_scan_by_plan basicUser 1000 basicUser_not_expired).
  reflexivity.
Defined.

(** Boundary values of the gate: basic at 4 and 5, one-time at 0 and 1, and
    pro at any count. *)
Example gate_boundaries :
  let at_ plan n :=
    User.canPerformAction
      (User.set_cvScans (User.set_plan basicUser plan) n) 1000 "cv_scan" in
  at_ "basic"%string 4 = true /\ at_ "basic"%string 5 = false /\
  at_ "one-time"%string 0 = true /\ at_ "one-time"%string 1 = false /\
  at_ "pro"%string 1000000 = true.
Proof. repeat split. Qed.

(** C4. When [planExpiresAt] is set and earlier than the current time, the
    gate refuses every action, whatever the plan and the counters. *)
Theorem gate_expired_denies_all (u : User.t) (now : Z) (action : string) :
  User.expired u now -> User.canPerformAction u now action = false.
Proof.
  intros [e [He Hlt]]. unfold User.canPerformAction. rewrite He.
  apply Z.ltb_lt in Hlt. rewrite Hlt. reflexivity.
Qed.

Lemma expired_pro_user :
  User.expired (User.set_planExpiresAt (User.set_plan basicUser "pro") (Some 500))
               1000.
Proof. exists 500. split; [reflexivity | lia]. Defined.

Lemma gate_expired_denies_all_witness :
  User.canPerformAction
    (User.set_planExpiresAt (User.set_plan basicUser "pro") (Some 500))
    1000 "cv_scan" = false.
Proof.
  apply (gate_expired_denies_all _ 1000 "cv_scan" expired_pro_user).
Defined.

(* ================================================================== *)
(** * Billing events *)
(* ================================================================== *)

(** C6. A subscription-expired event whose subscription id resolves to a
    user leaves that user, whatever the plan was before, on plan free with
    status expired, and the gate then refuses both scan actions at any
    time. *)
Theorem subscription_expired_downgrades
        (db : Payments.DB) (data : Payments.EventData) (i : nat) (u : User.t) :
  Coll.findOne (Payments.bySubscriptionId (Payments.id data)) (Payments.users db)
    = Some (i, u) ->
  exists u',
    Coll.findOne (Payments.bySubscriptionId (Payments.id data))
                 (Payments.users (Payments.handleSubscriptionExpired db data))
      = Some (i, u') /\
    User.plan u' = "free"%string /\
    User.planStatus u' = "expired"%string /\
    forall now,
      User.canPerformAction u' now "cv_scan" = false /\
      User.canPerformAction u' now "linkedin_scan" = false.
Proof.
  intros H.
  set (u' := User.set_planStatus (User.set_plan u "free") "expired").
  exists u'. unfold Payments.handleSubscriptionExpired. rewrite H.
  unfold Payments.save. fold u'.
  replace (User.validate u') with true by reflexivity. simpl.
  split.
  - apply (findOne_update_same _ _ i u' u H).
    destruct (findOne_sound _ _ _ _ H) as [_ [_ Hq]]. exact Hq.
  - repeat split; unfold User.canPerformAction; simpl;
      destruct (User.planExpiresAt u) as [e|]; try destruct (e <? now);
      reflexivity.
Qed.

Lemma subscription_expired_downgrades_witness :
  exists u',
    Coll.findOne (Payments.bySubscriptionId "sub_1")
                 (Payments.users
                    (Payments.handleSubscriptionExpired proDb (eventFor "sub_1")))
      = Some (O, u') /\
    User.plan u' = "free"%string /\
    User.planStatus u' = "expired"%string /\
    forall now,
      User.canPerformAction u' now "cv_scan" = false /\
      User.canPerformAction u' now "linkedin_scan" = false.
Proof.
  apply (subscription_expired_downgrades proDb (eventFor "sub_1") O
           (User.set_plan basicUser "pro")).
  reflexivity.
Defined.

(** C7. The payment-failed handler assigns the status past_due, but the
    schema of the User model does not list that value, so the save is
    rejected and no stored user ever changes: the handler leaves every
    database as it found it. *)
Theorem payment_failed_status_rejected :
  User.mem "past_due" User.planStatus_enum = false /\
  (forall db data, Payments.handleSubscriptionPaymentFailed db data = db) /\
  (exists u,
     Coll.findOne (Payments.bySubscriptionId "sub_1")
       (Payments.users
          (Payments.handleSubscriptionPaymentFailed proDb (eventFor "sub_1")))
       = Some (O, u) /\
     User.planStatus u = "active"%string).
Proof.
  split; [reflexivity|]. split.
  - intros db data. unfold Payments.handleSubscriptionPaymentFailed.
    destruct (Coll.findOne _ _) as [[i u]|]; [|reflexivity].
    unfold Payments.save, User.validate. simpl.
    rewrite andb_false_r. reflexivity.
  - eexists. split; reflexivity.
Qed.

(** C3. A subscription-created event delivered a second time, to any
    state reached after its first delivery, scans having been counted in
    between or not, leaves both usage counters exactly as it found them:
    no reset is applied again.  As shipped, the handler stops at the read
    of [PRODUCT_VARIANTS], which throws before any field is assigned, so
    every delivery, the first included, leaves the whole database as it
    was. *)
Theorem subscription_created_redelivery_keeps_counters
        (db : Payments.DB) (ev : Payments.EventData)
        (scans : list Payments.Scan) :
  let db1 := Payments.handleSubscriptionCreated db ev in
  let db2 := Payments.recordScans db1 scans in
  Payments.countersOf (Payments.user_email ev)
                      (Payments.handleSubscriptionCreated db2 ev)
    = Payments.countersOf (Payments.user_email ev) db2 /\
  Payments.handleSubscriptionCreated db2 ev = db2 /\
  db1 = db.
Proof.
  assert (N : forall d, Payments.handleSubscriptionCreated d ev = d).
  { intros d. unfold Payments.handleSubscriptionCreated.
    destruct (Coll.findOne _ (Payments.users d)) as [[i u]|]; reflexivity. }
  cbv zeta. rewrite !N. repeat split.
Qed.

(** The counters of the sample account through a delivery, a résumé scan
    and a second delivery: 4 and 5, then 5 and 5, then 5 and 5. *)
Example subscription_created_redelivery_trace :
  let db1 := Payments.handleSubscriptionCreated proDb (eventFor "sub_1") in
  let db2 := Payments.recordScans db1 [Payments.CvScan O] in
  Payments.countersOf "a@b.com" db1 = Some (4, 5) /\
  Payments.countersOf "a@b.com" db2 = Some (5, 5) /\
  Payments.countersOf "a@b.com"
    (Payments.handleSubscriptionCreated db2 (eventFor "sub_1")) = Some (5, 5).
Proof. repeat split. Qed.

(* ================================================================== *)
(** * Category scorers *)
(* ================================================================== *)

Lemma filter_length_le {A : Type} (p : A -> bool) (l : list A) :
  (List.length (filter p l) <= List.length l)%nat.
Proof.
  induction l as [|x r IH]; simpl; [lia|].
  destruct (p x); simpl; lia.
Qed.

Lemma below_in_seq (P : nat -> bool) (bound : nat) :
  forallb P (seq 0 (S bound)) = true ->
  forall n, (n <= bound)%nat -> P n = true.
Proof.
  intros H n Hn. rewrite forallb_forall in H. apply H.
  apply in_seq. lia.
Qed.

(** The score formula of [analyzeKeywords] at every possible number of
    found keywords: in range, and a number that [|| 0] leaves alone. *)
Lemma keyword_formula_range (n : nat) :
  (n <= 77)%nat ->
  let s := JS.Math_min 100 (JS.of_nat n / 20 * 100)%float in
  JS.in_0_100 s = true /\ JS.or_default (Some s) 0 = s.
Proof.
  intros Hn s.
  pose (P := fun k : nat =>
             let s := JS.Math_min 100 (JS.of_nat k / 20 * 100)%float in
             JS.in_0_100 s && PrimFloat.Leibniz.eqb (JS.or_default (Some s) 0) s).
  assert (H : P n = true).
  { apply (below_in_seq P 77); [vm_compute; reflexivity | exact Hn]. }
  unfold P in H. cbv beta zeta in H.
  apply andb_true_iff in H. destruct H as [H1 H2].
  split; [exact H1 | apply FloatAxioms.Leibniz.eqb_spec; exact H2].
Qed.

Lemma technical_formula_range (n : nat) :
  (n <= 30)%nat ->
  let s := JS.Math_min 100 (JS.of_nat n / 10 * 100)%float in
  JS.in_0_100 s = true /\ JS.or_default (Some s) 0 = s.
Proof.
  intros Hn s.
  pose (P := fun k : nat =>
             let s := JS.Math_min 100 (JS.of_nat k / 10 * 100)%float in
             JS.in_0_100 s && PrimFloat.Leibniz.eqb (JS.or_default (Some s) 0) s).
  assert (H : P n = true).
  { apply (below_in_seq P 30); [vm_compute; reflexivity | exact Hn]. }
  unfold P in H. cbv beta zeta in H.
  apply andb_true_iff in H. destruct H as [H1 H2].
  split; [exact H1 | apply FloatAxioms.Leibniz.eqb_spec; exact H2].
Qed.

Ltac by_cases_on_facts :=
  repeat match goal with
    | |- context [if ?b then _ else _] => destruct b
    end;
  (eexists; (split; [reflexivity | split; vm_compute; reflexivity])).

Lemma keywords_plain (text : string) :
  plain_score (CVAnalysis.kw_score (CvRoutes.analyzeKeywords text)).
Proof.
  unfold CvRoutes.analyzeKeywords. cbv zeta. cbn [CVAnalysis.kw_score].
  match goal with
  | |- context [JS.of_nat ?n] =>
      destruct (keyword_formula_range n) as [H1 H2];
        [apply (filter_length_le _ CvRoutes.commonTechKeywords)|]
  end.
  eexists. split; [reflexivity | split; assumption].
Qed.

Lemma technical_plain (text : string) :
  plain_score (CVAnalysis.tech_score (CvRoutes.analyzeTechnicalSkills text)).
Proof.
  unfold CvRoutes.analyzeTechnicalSkills. cbv zeta.
  cbn [CVAnalysis.tech_score].
  match goal with
  | |- context [JS.of_nat ?n] =>
      destruct (technical_formula_range n) as [H1 H2]
  end.
  - pose proof (filter_length_le
                  (fun lang => Str.includes (Str.toLowerCase text) lang)
                  CvRoutes.languageCatalog).
    pose proof (filter_length_le
                  (fun fw => Str.includes (Str.toLowerCase text) fw)
                  CvRoutes.frameworkCatalog).
    pose proof (filter_length_le
                  (fun tool => Str.includes (Str.toLowerCase text) tool)
                  CvRoutes.toolCatalog).
    pose proof (filter_length_le
                  (fun db => Str.includes (Str.toLowerCase text) db)
                  CvRoutes.databaseCatalog).
    simpl List.length in *. lia.
  - eexists. split; [reflexivity | split; assumption].
Qed.

Lemma formatting_plain (text : string) :
  plain_score (CVAnalysis.fmt_score (CvRoutes.analyzeFormatting text)).
Proof.
  unfold CvRoutes.analyzeFormatting. cbv zeta. cbn [CVAnalysis.fmt_score].
  destruct (Regex.test_i CvRoutes.re_contact text),
           (Regex.test_i CvRoutes.re_skills text),
           (Regex.test_i CvRoutes.re_experience text);
    cbn [andb]; by_cases_on_facts.
Qed.

Lemma content_plain (text : string) :
  plain_score (CVAnalysis.cnt_score (CvRoutes.analyzeContent text)).
Proof.
  unfold CvRoutes.analyzeContent. cbv zeta. cbn [CVAnalysis.cnt_score].
  by_cases_on_facts.
Qed.

Lemma headline_plain (headline : string) :
  plain_score (LinkedInAnalysis.hl_score (LinkedinRoutes.analyzeHeadline headline)).
Proof.
  unfold LinkedinRoutes.analyzeHeadline. cbv zeta.
  cbn [LinkedInAnalysis.hl_score]. by_cases_on_facts.
Qed.

Lemma summary_plain (summary : string) :
  plain_score (LinkedInAnalysis.sm_score (LinkedinRoutes.analyzeSummary summary)).
Proof.
  unfold LinkedinRoutes.analyzeSummary. cbv zeta.
  cbn [LinkedInAnalysis.sm_score]. by_cases_on_facts.
Qed.

Lemma experience_plain (experience : list LinkedInAnalysis.ExperienceItem) :
  plain_score
    (LinkedInAnalysis.ex_score (LinkedinRoutes.analyzeExperience experience)).
Proof.
  unfold LinkedinRoutes.analyzeExperience. cbv zeta.
  cbn [LinkedInAnalysis.ex_score]. by_cases_on_facts.
Qed.

Lemma skills_plain (skills : list string) :
  plain_score (LinkedInAnalysis.sk_score (LinkedinRoutes.analyzeSkills skills)).
Proof.
  unfold LinkedinRoutes.analyzeSkills. cbv zeta.
  cbn [LinkedInAnalysis.sk_score]. by_cases_on_facts.
Qed.

Lemma engagement_plain (pd : LinkedInAnalysis.ProfileData) :
  plain_score
    (LinkedInAnalysis.en_score (LinkedinRoutes.analyzeEngagement pd)) /\
  JS.le (Some 60%float)
        (LinkedInAnalysis.en_score (LinkedinRoutes.analyzeEngagement pd)) = true.
Proof.
  unfold LinkedinRoutes.analyzeEngagement. cbv zeta.
  cbn [LinkedInAnalysis.en_score].
  destruct (PrimFloat.leb 500 (JS.or_default (LinkedInAnalysis.pd_connections pd) 0)).
  - split; [by_cases_on_facts | vm_compute; reflexivity].
  - destruct (PrimFloat.leb 100 (JS.or_default (LinkedInAnalysis.pd_connections pd) 0)).
    + split; [by_cases_on_facts | vm_compute; reflexivity].
    + split; [by_cases_on_facts | vm_compute; reflexivity].
Qed.

Lemma plain_in_range (x : JS.number) :
  plain_score x -> JS.score_in_range x = true.
Proof. intros [s [-> [H _]]]. exact H. Qed.

Lemma plain_at_least_zero (x : JS.number) :
  plain_score x -> JS.le (Some 0%float) x = true.
Proof.
  intros [s [-> [H _]]]. unfold JS.in_0_100 in H.
  apply andb_true_iff in H. destruct H as [H _]. exact H.
Qed.

(** C9. Whatever the profile, and so for an empty profile with no
    connections, the engagement scorer reports recent activity and
    recommendations as present and returns a score of at least 60. *)
Theorem engagement_score_at_least_60 (pd : LinkedInAnalysis.ProfileData) :
  let e := LinkedinRoutes.analyzeEngagement pd in
  LinkedInAnalysis.en_hasRecentActivity e = true /\
  LinkedInAnalysis.en_hasRecommendations e = true /\
  (exists s, LinkedInAnalysis.en_score e = Some s /\
             PrimFloat.leb 60 s = true) /\
  LinkedInAnalysis.en_score
    (LinkedinRoutes.analyzeEngagement LinkedinRoutes.emptyProfile)
    = Some 60%float.
Proof.
  intros e. split; [reflexivity|]. split; [reflexivity|]. split.
  - destruct (engagement_plain pd) as [[s [Hs _]] H60]. fold e in Hs, H60.
    exists s. split; [exact Hs|]. rewrite Hs in H60. exact H60.
  - vm_compute. reflexivity.
Qed.

(** C5. Every category scorer returns, for every input, a score between 0
    and 100.  Empty résumé text gives no found keyword, every boolean fact
    false and the four sub-scores 0; the empty profile gives the facts of
    headline, summary, experience and skills false with score 0 and the
    engagement score 60; and no input scores lower than the empty one. *)
Theorem category_scores_in_range :
  (forall text,
     let a := CvRoutes.performATSAnalysis text in
     JS.score_in_range (CVAnalysis.kw_score (CVAnalysis.keywords a)) = true /\
     JS.score_in_range (CVAnalysis.fmt_score (CVAnalysis.formatting a)) = true /\
     JS.score_in_range (CVAnalysis.cnt_score (CVAnalysis.content a)) = true /\
     JS.score_in_range (CVAnalysis.tech_score (CVAnalysis.technical a)) = true) /\
  (forall pd,
     let a := LinkedinRoutes.performLinkedInAnalysis pd in
     JS.score_in_range (LinkedInAnalysis.hl_score (LinkedInAnalysis.headline a)) = true /\
     JS.score_in_range (LinkedInAnalysis.sm_score (LinkedInAnalysis.summary a)) = true /\
     JS.score_in_range (LinkedInAnalysis.ex_score (LinkedInAnalysis.experience a)) = true /\
     JS.score_in_range (LinkedInAnalysis.sk_score (LinkedInAnalysis.skills a)) = true /\
     JS.score_in_range (LinkedInAnalysis.en_score (LinkedInAnalysis.engagement a)) = true) /\
  (let a := CvRoutes.performATSAnalysis EmptyString in
   CVAnalysis.found (CVAnalysis.keywords a) = [] /\
   CVAnalysis.kw_score (CVAnalysis.keywords a) = Some 0%float /\
   CVAnalysis.formatting a =
     {| CVAnalysis.hasProperSections := false;
        CVAnalysis.hasContactInfo := false;
        CVAnalysis.hasSkillsSection := false;
        CVAnalysis.hasExperienceSection := false;
        CVAnalysis.fmt_score := Some 0%float |} /\
   CVAnalysis.content a =
     {| CVAnalysis.hasQuantifiableAchievements := false;
        CVAnalysis.hasRelevantExperience := false;
        CVAnalysis.hasEducationSection := false;
        CVAnalysis.wordCount := 1;
        CVAnalysis.cnt_score := Some 0%float |} /\
   CVAnalysis.technical a =
     {| CVAnalysis.programmingLanguages := []; CVAnalysis.frameworks := [];
        CVAnalysis.tools := []; CVAnalysis.databases := [];
        CVAnalysis.tech_score := Some 0%float |}) /\
  (let a := LinkedinRoutes.performLinkedInAnalysis LinkedinRoutes.emptyProfile in
   LinkedInAnalysis.headline a =
     {| LinkedInAnalysis.hl_hasKeywords := false;
        LinkedInAnalysis.hl_isCompelling := false;
        LinkedInAnalysis.hl_length := 0;
        LinkedInAnalysis.hl_score := Some 0%float |} /\
   LinkedInAnalysis.summary a =
     {| LinkedInAnalysis.sm_hasCallToAction := false;
        LinkedInAnalysis.sm_hasKeywords := false;
        LinkedInAnalysis.sm_hasAchievements := false;
        LinkedInAnalysis.sm_length := 0;
        LinkedInAnalysis.sm_score := Some 0%float |} /\
   LinkedInAnalysis.experience a =
     {| LinkedInAnalysis.ex_hasQuantifiableResults := false;
        LinkedInAnalysis.ex_hasRelevantKeywords := false;
        LinkedInAnalysis.ex_isWellStructured := false;
        LinkedInAnalysis.ex_count := 0;
        LinkedInAnalysis.ex_score := Some 0%float |} /\
   LinkedInAnalysis.skills a =
     {| LinkedInAnalysis.sk_hasRelevantSkills := false;
        LinkedInAnalysis.sk_hasTechnicalSkills := false;
        LinkedInAnalysis.sk_count := 0;
        LinkedInAnalysis.sk_score := Some 0%float |} /\
   LinkedInAnalysis.en_connectionCount (LinkedInAnalysis.engagement a) = 0%float /\
   LinkedInAnalysis.en_score (LinkedInAnalysis.engagement a) = Some 60%float) /\
  (forall text,
     let a := CvRoutes.performATSAnalysis text in
     let a0 := CvRoutes.performATSAnalysis EmptyString in
     JS.le (CVAnalysis.kw_score (CVAnalysis.keywords a0))
           (CVAnalysis.kw_score (CVAnalysis.keywords a)) = true /\
     JS.le (CVAnalysis.fmt_score (CVAnalysis.formatting a0))
           (CVAnalysis.fmt_score (CVAnalysis.formatting a)) = true /\
     JS.le (CVAnalysis.cnt_score (CVAnalysis.content a0))
           (CVAnalysis.cnt_score (CVAnalysis.content a)) = true /\
     JS.le (CVAnalysis.tech_score (CVAnalysis.technical a0))
           (CVAnalysis.tech_score (CVAnalysis.technical a)) = true) /\
  (forall pd,
     let a := LinkedinRoutes.performLinkedInAnalysis pd in
     let a0 := LinkedinRoutes.performLinkedInAnalysis LinkedinRoutes.emptyProfile in
     JS.le (LinkedInAnalysis.hl_score (LinkedInAnalysis.headline a0))
           (LinkedInAnalysis.hl_score (LinkedInAnalysis.headline a)) = true /\
     JS.le (LinkedInAnalysis.sm_score (LinkedInAnalysis.summary a0))
           (LinkedInAnalysis.sm_score (LinkedInAnalysis.summary a)) = true /\
     JS.le (LinkedInAnalysis.ex_score (LinkedInAnalysis.experience a0))
           (LinkedInAnalysis.ex_score (LinkedInAnalysis.experience a)) = true /\
     JS.le (LinkedInAnalysis.sk_score (LinkedInAnalysis.skills a0))
           (LinkedInAnalysis.sk_score (LinkedInAnalysis.skills a)) = true /\
     JS.le (LinkedInAnalysis.en_score (LinkedInAnalysis.engagement a0))
           (LinkedInAnalysis.en_score (LinkedInAnalysis.engagement a)) = true).
Proof.
  split; [|split; [|split; [|split; [|split]]]].
  - intros text a. unfold a, CvRoutes.performATSAnalysis.
    cbn [CVAnalysis.keywords CVAnalysis.formatting CVAnalysis.content
         CVAnalysis.technical].
    repeat split; apply plain_in_range;
      [apply keywords_plain | apply formatting_plain | apply content_plain
      | apply technical_plain].
  - intros pd a. unfold a, LinkedinRoutes.performLinkedInAnalysis.
    cbn [LinkedInAnalysis.headline LinkedInAnalysis.summary
         LinkedInAnalysis.experience LinkedInAnalysis.skills
         LinkedInAnalysis.engagement].
    repeat split; apply plain_in_range;
      [apply headline_plain | apply summary_plain | apply experience_plain
      | apply skills_plain | apply engagement_plain].
  - vm_compute. repeat split.
  - vm_compute. repeat split.
  - intros text a a0.
    replace (CVAnalysis.kw_score (CVAnalysis.keywords a0))
      with (Some 0%float) by (vm_compute; reflexivity).
    replace (CVAnalysis.fmt_score (CVAnalysis.formatting a0))
      with (Some 0%float) by (vm_compute; reflexivity).
    replace (CVAnalysis.cnt_score (CVAnalysis.content a0))
      with (Some 0%float) by (vm_compute; reflexivity).
    replace (CVAnalysis.tech_score (CVAnalysis.technical a0))
      with (Some 0%float) by (vm_compute; reflexivity).
    unfold a, CvRoutes.performATSAnalysis.
    cbn [CVAnalysis.keywords CVAnalysis.formatting CVAnalysis.content
         CVAnalysis.technical].
    repeat split; apply plain_at_least_zero;
      [apply keywords_plain | apply formatting_plain | apply content_plain
      | apply technical_plain].
  - intros pd a a0.
    replace (LinkedInAnalysis.hl_score (LinkedInAnalysis.headline a0))
      with (Some 0%float) by (vm_compute; reflexivity).
    replace (LinkedInAnalysis.sm_score (LinkedInAnalysis.summary a0))
      with (Some 0%float) by (vm_compute; reflexivity).
    replace (LinkedInAnalysis.ex_score (LinkedInAnalysis.experience a0))
      with (Some 0%float) by (vm_compute; reflexivity).
    replace (LinkedInAnalysis.sk_score (LinkedInAnalysis.skills a0))
      with (Some 0%float) by (vm_compute; reflexivity).
    replace (LinkedInAnalysis.en_score (LinkedInAnalysis.engagement a0))
      with (Some 60%float) by (vm_compute; reflexivity).
    unfold a, LinkedinRoutes.performLinkedInAnalysis.
    cbn [LinkedInAnalysis.headline LinkedInAnalysis.summary
         LinkedInAnalysis.experience LinkedInAnalysis.skills
         LinkedInAnalysis.engagement].
    repeat split; try apply plain_at_least_zero;
      [apply headline_plain | apply summary_plain | apply experience_plain
      | apply skills_plain | apply engagement_plain].
Qed.

(* ================================================================== *)
(** * Composite scores *)
(* ================================================================== *)










(* ================================================================== *)
(** * Compare *)
(* ================================================================== *)


Lemma plain_or_default (x : JS.number) :
  plain_score x -> JS.or_default x 0 = JS.ToNumber x.
Proof. intros [s [-> [_ H]]]. rewrite H. reflexivity. Qed.

(** The score computed by the compare routes is the composite score of the
    model on the re-run analysis. *)
Lemma cv_afterScore_is_composite (d : CVAnalysis.t) (text : string) :
  CvRoutes.afterScoreOf (CvRoutes.performATSAnalysis text) =
  snd (CVAnalysis.calculateATSScore
         (CvRoutes.set_analysis d (CvRoutes.performATSAnalysis text))).
Proof.
  unfold CVAnalysis.calculateATSScore, CvRoutes.afterScoreOf,
    CvRoutes.set_analysis, CvRoutes.performATSAnalysis.
  cbn [snd CVAnalysis.analysis CVAnalysis.keywords CVAnalysis.formatting
       CVAnalysis.content CVAnalysis.technical].
  rewrite (plain_or_default _ (keywords_plain text)),
    (plain_or_default _ (formatting_plain text)),
    (plain_or_default _ (content_plain text)),
    (plain_or_default _ (technical_plain text)).
  reflexivity.
Qed.





(* ================================================================== *)
(** * What a free-plan user is sent *)
(* ================================================================== *)





(** The scores of the two samples, and what binary64 arithmetic and the
    direction of rounding do outside the theorem above: 90 * 0.35 falls
    just below 31.5, and a negative half is rounded up by [Math.round]. *)
Example composite_score_values :
  snd (CVAnalysis.calculateATSScore sampleCv) = 58%float /\
  snd (LinkedInAnalysis.calculateOptimizationScore sampleLinkedin) = 57%float /\
  JS.Math_round (90 * 0.35) = 31%float /\
  JS.Math_round (-2.5) = (-2)%float /\
  Spec.round_half_away_from_zero (-2.5) = (-3)%float.
Proof. vm_compute. repeat split. Qed.

(* ================================================================== *)
(** * More on the plan gate *)
(* ================================================================== *)

Lemma mem_paid_plans (p : string) :
  User.mem p ["one-time"; "basic"; "pro"]%string = true ->
  p = "one-time"%string \/ p = "basic"%string \/ p = "pro"%string.
Proof.
  unfold User.mem. cbn [existsb]. intros H.
  repeat (apply orb_true_iff in H; destruct H as [H|H]);
    try discriminate; apply String.eqb_eq in H; subst; auto.
Qed.

(** X1. The plans are ordered by what they allow.  On the free plan the
    gate refuses every action at any time; whatever it allows a one-time
    account it allows the same account on basic, and whatever it allows on
    basic it allows on pro. *)
Theorem gate_plan_tiers (u : User.t) (now : Z) (action : string) :
  User.canPerformAction (User.set_plan u "free") now action = false /\
  (User.canPerformAction (User.set_plan u "one-time") now action = true ->
   User.canPerformAction (User.set_plan u "basic") now action = true) /\
  (User.canPerformAction (User.set_plan u "basic") now action = true ->
   User.canPerformAction (User.set_plan u "pro") now action = true).
Proof.
  unfold User.canPerformAction.
  cbn [User.set_plan User.plan User.planExpiresAt User.usage].
  destruct (match User.planExpiresAt u with
            | Some e => e <? now
            | None => false
            end); [repeat split; intros; assumption|].
  destruct (String.eqb action "cv_scan");
    [cbn; repeat split; intros H; try reflexivity;
     apply Z.ltb_lt in H; apply Z.ltb_lt; lia|].
  destruct (String.eqb action "linkedin_scan");
    [cbn; repeat split; intros H; try reflexivity;
     apply Z.ltb_lt in H; apply Z.ltb_lt; lia|].
  destruct (String.eqb action "pdf_export"); [cbn; repeat split; auto|].
  destruct (String.eqb action "api_access"); [cbn; repeat split; auto|].
  destruct (String.eqb action "comparison_view"); cbn; repeat split; auto.
Qed.

(** X2. What the gate allows now it also allowed earlier and with fewer
    scans used: permission is kept when the clock is moved back and the
    usage counters are lowered. *)
Theorem gate_monotone_in_time_and_usage
        (u : User.t) (now now' cv' li' : Z) (action : string) :
  User.canPerformAction u now action = true ->
  now' <= now ->
  cv' <= User.cvScans (User.usage u) ->
  li' <= User.linkedinScans (User.usage u) ->
  User.canPerformAction
    (User.set_linkedinScans (User.set_cvScans u cv') li') now' action = true.
Proof.
  unfold User.canPerformAction.
  cbn [User.set_linkedinScans User.set_cvScans User.set_usage User.plan
       User.planExpiresAt User.usage User.cvScans User.linkedinScans].
  intros H Hn Hc Hl.
  destruct (User.planExpiresAt u) as [e|].
  - destruct (e <? now) eqn:E; [discriminate|].
    apply Z.ltb_ge in E.
    replace (e <? now') with false by (symmetry; apply Z.ltb_ge; lia).
    repeat match goal with
      | H : context [if String.eqb ?a ?b then _ else _] |- _ =>
          destruct (String.eqb a b)
      end; try assumption; try discriminate;
      apply Z.ltb_lt in H; apply Z.ltb_lt; lia.
  - repeat match goal with
      | H : context [if String.eqb ?a ?b then _ else _] |- _ =>
          destruct (String.eqb a b)
      end; try assumption; try discriminate;
      apply Z.ltb_lt in H; apply Z.ltb_lt; lia.
Qed.

Lemma gate_monotone_in_time_and_usage_witness :
  User.canPerformAction
    (User.set_linkedinScans (User.set_cvScans basicUser 0) 0) 10 "cv_scan"
  = true.
Proof.
  apply (gate_monotone_in_time_and_usage basicUser 1000 10 0 0 "cv_scan");
    [reflexivity | | | ]; cbn; lia.
Defined.

(** X3. [requirePlan] lets a request through exactly when the plan is one
    of the required ones and has not expired.  Hence, behind
    [requirePlan(['one-time','basic','pro'])], a scan the gate then refuses
    is refused for its counter alone: the plan is one-time with at least 1
    scan used, or basic with at least 5. *)
Theorem requirePlan_then_gate (plans : list string) (u : User.t) (now : Z) :
  (Http.requirePlan plans u now = None <->
   User.mem (User.plan u) plans = true /\ ~ User.expired u now) /\
  (Http.requirePlan ["one-time"; "basic"; "pro"]%string u now = None ->
   (User.canPerformAction u now "cv_scan" = false ->
    (User.plan u = "one-time"%string /\ 1 <= User.cvScans (User.usage u)) \/
    (User.plan u = "basic"%string /\ 5 <= User.cvScans (User.usage u))) /\
   (User.canPerformAction u now "linkedin_scan" = false ->
    (User.plan u = "one-time"%string /\
     1 <= User.linkedinScans (User.usage u)) \/
    (User.plan u = "basic"%string /\
     5 <= User.linkedinScans (User.usage u)))).
Proof.
  split.
  - unfold Http.requirePlan, User.expired. split.
    + destruct (User.mem (User.plan u) plans); [|discriminate].
      destruct (User.planExpiresAt u) as [e|]; cbn [negb].
      * destruct (e <? now) eqn:E; [discriminate|]. intros _.
        split; [reflexivity|]. intros [e' [He Hlt]]. inversion He; subst.
        apply Z.ltb_ge in E. lia.
      * intros _. split; [reflexivity|]. intros [e' [He _]]. discriminate.
    + intros [Hm Hx]. rewrite Hm. cbn [negb].
      rewrite (not_expired_guard u now Hx). reflexivity.
  - unfold Http.requirePlan.
    destruct (User.mem (User.plan u) _) eqn:Hm; [|discriminate].
    cbn [negb].
    destruct (match User.planExpiresAt u with
              | Some e => e <? now
              | None => false
              end) eqn:G; [discriminate|].
    intros _. unfold User.canPerformAction. rewrite G.
    destruct (mem_paid_plans _ Hm) as [E|[E|E]]; rewrite E; cbn;
      split; intros H; try discriminate;
      apply Z.ltb_ge in H; auto.
Qed.

(* ================================================================== *)
(** * POST /analyze *)
(* ================================================================== *)

Lemma update_last {A : Type} (l : list A) (x y : A) :
  Coll.update (List.length l) x (l ++ [y]) = l ++ [x].
Proof.
  induction l as [|z r IH]; cbn; [reflexivity | rewrite IH; reflexivity].
Qed.

Lemma paid_plan_not_free (p : string) :
  User.mem p ["one-time"; "basic"; "pro"]%string = true ->
  String.eqb p "free" = false.
Proof.
  intros H. destruct (mem_paid_plans p H) as [E|[E|E]]; subst; reflexivity.
Qed.

Lemma calculateATSScore_by_analysis (x y : CVAnalysis.t) :
  CVAnalysis.analysis x = CVAnalysis.analysis y ->
  snd (CVAnalysis.calculateATSScore x) = snd (CVAnalysis.calculateATSScore y).
Proof.
  unfold CVAnalysis.calculateATSScore. cbn [snd]. intros ->. reflexivity.
Qed.

Lemma calculateATSScore_stored (x : CVAnalysis.t) :
  CVAnalysis.atsScore (fst (CVAnalysis.calculateATSScore x))
  = snd (CVAnalysis.calculateATSScore x).
Proof. reflexivity. Qed.

(** X4. A request to analyze either fails, and then the collection and
    the account are left as they were, or succeeds, and then the upload
    was a PDF or DOCX file of at most 10 MB, exactly one completed
    document holding the full analysis of its text has been appended, the response carries that document's score, analysis
    and suggestions uncut with [locked] false, and the account's résumé
    counter has gone up by one.  No upsell mail is sent in either case. *)
Theorem analyze_outcome
        (user : User.t) (now : Z) (file : option CvRoutes.File)
        (newId elapsed : Z) (store : list CVAnalysis.t) :
  let out := CvRoutes.analyze user now file newId elapsed store in
  CvRoutes.out_mails out = [] /\
  match CvRoutes.out_response out with
  | Http.Error _ _ =>
      CvRoutes.out_store out = store /\ CvRoutes.out_user out = user
  | Http.Ok body =>
      exists f text d,
        file = Some f /\ CvRoutes.fileFilter f = true /\
        CvRoutes.size f <= CvRoutes.fileSizeLimit /\
        CvRoutes.parsed f = Some text /\
        Str.trim_is_empty text = false /\
        CvRoutes.out_store out = store ++ [d] /\
        CVAnalysis._id d = newId /\
        CVAnalysis.userId d = User._id user /\
        CVAnalysis.extractedText d = text /\
        CVAnalysis.status d = "completed"%string /\
        CVAnalysis.analysis d = CvRoutes.performATSAnalysis text /\
        CVAnalysis.suggestions d
          = CvRoutes.generateSuggestions (CvRoutes.performATSAnalysis text) /\
        CVAnalysis.atsScore d
          = snd (CVAnalysis.calculateATSScore
                   (CvRoutes.set_analysis d (CvRoutes.performATSAnalysis text))) /\
        body = {| CvRoutes.body_analysisId := newId;
                  CvRoutes.body_atsScore := CVAnalysis.atsScore d;
                  CvRoutes.body_analysis := CVAnalysis.analysis d;
                  CvRoutes.body_suggestions := CVAnalysis.suggestions d;
                  CvRoutes.body_processingTime := elapsed;
                  CvRoutes.body_locked := false |} /\
        CvRoutes.out_user out
          = User.set_cvScans user (User.cvScans (User.usage user) + 1)
  end.
Proof.
  unfold CvRoutes.analyze.
  destruct (Http.requirePlan _ user now) as [[st msg]|] eqn:R;
    [split; [reflexivity | split; reflexivity]|].
  destruct file as [f|]; [|split; [reflexivity | split; reflexivity]].
  destruct (CvRoutes.fileFilter f) eqn:Ff;
    [|split; [reflexivity | split; reflexivity]].
  cbn [negb].
  destruct (CvRoutes.fileSizeLimit <? CvRoutes.size f) eqn:Fs;
    [split; [reflexivity | split; reflexivity]|].
  apply Z.ltb_ge in Fs.
  destruct (User.canPerformAction user now "cv_scan");
    [|split; [reflexivity | split; reflexivity]].
  cbn [negb]. destruct (CvRoutes.parsed f) as [text|] eqn:P;
    [|split; [reflexivity | split; reflexivity]].
  destruct (Str.trim_is_empty text) eqn:T;
    [split; [reflexivity | split; reflexivity]|].
  assert (F : String.eqb (User.plan user) "free" = false).
  { apply paid_plan_not_free. unfold Http.requirePlan in R.
    destruct (User.mem (User.plan user) _); [reflexivity | discriminate]. }
  cbv zeta.
  cbn [User.set_cvScans User.set_usage User.plan].
  rewrite F, update_last.
  match goal with
  | |- context [(store ++ [?c])%list] => set (d := c)
  end.
  cbn [CvRoutes.out_mails CvRoutes.out_response CvRoutes.out_store
       CvRoutes.out_user].
  split; [reflexivity|].
  exists f, text, d.
  assert (Ha : CVAnalysis.analysis d = CvRoutes.performATSAnalysis text)
    by reflexivity.
  assert (Hs : CVAnalysis.suggestions d
               = CvRoutes.generateSuggestions (CvRoutes.performATSAnalysis text))
    by reflexivity.
  assert (Hr : CVAnalysis.atsScore d
               = snd (CVAnalysis.calculateATSScore
                        (CvRoutes.set_analysis d
                           (CvRoutes.performATSAnalysis text)))).
  { rewrite (calculateATSScore_by_analysis
               (CvRoutes.set_analysis d (CvRoutes.performATSAnalysis text))
               (CvRoutes.set_analysis
                  {| CVAnalysis._id := newId;
                     CVAnalysis.userId := User._id user;
                     CVAnalysis.originalFileName := CvRoutes.originalname f;
                     CVAnalysis.fileType :=
                       if String.eqb (CvRoutes.mimetype f) "application/pdf"
                       then "pdf"%string else "docx"%string;
                     CVAnalysis.extractedText := text;
                     CVAnalysis.atsScore := 0%float;
                     CVAnalysis.analysis := CvRoutes.emptyAnalysis;
                     CVAnalysis.suggestions := [];
                     CVAnalysis.optimizedVersion := None;
                     CVAnalysis.comparisonData := None;
                     CVAnalysis.status := "analyzing";
                     CVAnalysis.processingTime := 0;
                     CVAnalysis.locked := false |}
                  (CvRoutes.performATSAnalysis text)) eq_refl).
    rewrite <- calculateATSScore_stored. unfold d, CvRoutes.set_completed.
    cbn [CVAnalysis.atsScore]. reflexivity. }
  split; [reflexivity|]. split; [exact Ff|]. split; [exact Fs|].
  split; [exact P|]. split; [exact T|].
  split; [reflexivity|]. split; [reflexivity|]. split; [reflexivity|].
  split; [reflexivity|]. split; [reflexivity|]. split; [exact Ha|].
  split; [exact Hs|]. split; [exact Hr|]. split; reflexivity.
Qed.

Lemma analyze_ok_inv
      (user : User.t) (now : Z) (file : option CvRoutes.File)
      (newId elapsed : Z) (store : list CVAnalysis.t) (body : CvRoutes.AnalyzeBody) :
  CvRoutes.out_response (CvRoutes.analyze user now file newId elapsed store)
    = Http.Ok body ->
  Http.requirePlan ["one-time"; "basic"; "pro"]%string user now = None /\
  User.canPerformAction user now "cv_scan" = true /\
  CvRoutes.out_user (CvRoutes.analyze user now file newId elapsed store)
    = User.set_cvScans user (User.cvScans (User.usage user) + 1).
Proof.
  unfold CvRoutes.analyze.
  destruct (Http.requirePlan _ user now) as [[st msg]|] eqn:R;
    [intros H; discriminate H|].
  destruct file as [f|]; [|intros H; discriminate H].
  destruct (CvRoutes.fileFilter f); [|intros H; discriminate H].
  cbn [negb].
  destruct (CvRoutes.fileSizeLimit <? CvRoutes.size f);
    [intros H; discriminate H|].
  destruct (User.canPerformAction user now "cv_scan");
    [|intros H; discriminate H].
  cbn [negb]. destruct (CvRoutes.parsed f) as [text|];
    [|intros H; discriminate H].
  destruct (Str.trim_is_empty text); [intros H; discriminate H|].
  intros _. split; [reflexivity|]. split; reflexivity.
Qed.

Lemma analyze_denied_by_gate
      (user : User.t) (now : Z) (f : CvRoutes.File)
      (newId elapsed : Z) (store : list CVAnalysis.t) :
  User.canPerformAction user now "cv_scan" = false ->
  CvRoutes.fileFilter f = true ->
  CvRoutes.size f <= CvRoutes.fileSizeLimit ->
  exists msg,
    CvRoutes.out_response
      (CvRoutes.analyze user now (Some f) newId elapsed store)
    = Http.Error 403 msg.
Proof.
  intros C Ff Fs. apply Z.ltb_ge in Fs.
  unfold CvRoutes.analyze, Http.requirePlan. rewrite Ff, Fs.
  destruct (negb (User.mem (User.plan user) _)); [eexists; reflexivity|].
  destruct (match User.planExpiresAt user with
            | Some e => e <? now
            | None => false
            end); [eexists; reflexivity|].
  rewrite C. eexists. reflexivity.
Qed.

(** X5. Requests served one after another never take an account past its
    plan's limit.  When analyze succeeds, the plan had not expired and the
    new résumé counter is at most 1 on one-time and at most 5 on basic.
    Once the counter has reached the limit (or on the free plan) no upload
    is ever analyzed, and an uploaded PDF or DOCX file of at most 10 MB
    is answered with 403. *)
Theorem analyze_respects_quota
        (user : User.t) (now : Z) (file : option CvRoutes.File)
        (newId elapsed : Z) (store : list CVAnalysis.t) :
  let out := CvRoutes.analyze user now file newId elapsed store in
  ((exists body, CvRoutes.out_response out = Http.Ok body) ->
   ~ User.expired user now /\
   (User.plan user = "one-time"%string ->
    User.cvScans (User.usage (CvRoutes.out_user out)) <= 1) /\
   (User.plan user = "basic"%string ->
    User.cvScans (User.usage (CvRoutes.out_user out)) <= 5)) /\
  (User.plan user = "free"%string \/
   (User.plan user = "one-time"%string /\ 1 <= User.cvScans (User.usage user)) \/
   (User.plan user = "basic"%string /\ 5 <= User.cvScans (User.usage user)) ->
   (forall body, CvRoutes.out_response out <> Http.Ok body) /\
   (forall f, file = Some f ->
      CvRoutes.fileFilter f = true ->
      CvRoutes.size f <= CvRoutes.fileSizeLimit ->
      exists msg, CvRoutes.out_response out = Http.Error 403 msg)).
Proof.
  intros out. split.
  - intros [body H]. destruct (analyze_ok_inv _ _ _ _ _ _ _ H) as [R [C U]].
    assert (G : match User.planExpiresAt user with
                | Some e => e <? now
                | None => false
                end = false).
    { unfold Http.requirePlan in R.
      destruct (negb _); [discriminate|].
      destruct (match User.planExpiresAt user with
                | Some e => e <? now
                | None => false
                end); [discriminate | reflexivity]. }
    split.
    + intros [e [He Hlt]]. rewrite He in G. apply Z.ltb_ge in G. lia.
    + unfold out. rewrite U. unfold User.canPerformAction in C.
      rewrite G in C.
      cbn [User.set_cvScans User.set_usage User.usage User.cvScans].
      split; intros E; rewrite E in C; cbn in C; apply Z.ltb_lt in C; lia.
  - intros L.
    assert (C : User.canPerformAction user now "cv_scan" = false).
    { unfold User.canPerformAction.
      destruct (match User.planExpiresAt user with
                | Some e => e <? now
                | None => false
                end); [reflexivity|].
      destruct L as [E|[[E H]|[E H]]]; rewrite E; cbn;
        [reflexivity | apply Z.ltb_ge; exact H | apply Z.ltb_ge; exact H]. }
    split.
    + intros body H. destruct (analyze_ok_inv _ _ _ _ _ _ _ H) as [_ [C' _]].
      congruence.
    + intros f -> Ff Fs. apply analyze_denied_by_gate; assumption.
Qed.

(* ================================================================== *)
(** * The range of the composite scores *)
(* ================================================================== *)

Lemma below_in_seq2 (P : nat -> nat -> bool) (b1 b2 : nat) :
  forallb (fun n => forallb (P n) (seq 0 (S b2))) (seq 0 (S b1)) = true ->
  forall n m, (n <= b1)%nat -> (m <= b2)%nat -> P n m = true.
Proof.
  intros H n m Hn Hm. rewrite forallb_forall in H.
  assert (Hn' : In n (seq 0 (S b1))) by (apply in_seq; lia).
  specialize (H n Hn'). rewrite forallb_forall in H.
  apply H. apply in_seq. lia.
Qed.

Lemma technical_total_le (text : string) :
  (List.length (filter (fun lang => Str.includes (Str.toLowerCase text) lang)
                       CvRoutes.languageCatalog) +
   List.length (filter (fun fw => Str.includes (Str.toLowerCase text) fw)
                       CvRoutes.frameworkCatalog) +
   List.length (filter (fun tool => Str.includes (Str.toLowerCase text) tool)
                       CvRoutes.toolCatalog) +
   List.length (filter (fun db => Str.includes (Str.toLowerCase text) db)
                       CvRoutes.databaseCatalog) <= 30)%nat.
Proof.
  pose proof (filter_length_le
                (fun lang => Str.includes (Str.toLowerCase text) lang)
                CvRoutes.languageCatalog).
  pose proof (filter_length_le
                (fun fw => Str.includes (Str.toLowerCase text) fw)
                CvRoutes.frameworkCatalog).
  pose proof (filter_length_le
                (fun tool => Str.includes (Str.toLowerCase text) tool)
                CvRoutes.toolCatalog).
  pose proof (filter_length_le
                (fun db => Str.includes (Str.toLowerCase text) db)
                CvRoutes.databaseCatalog).
  simpl List.length in *. lia.
Qed.

(** From 20 found keywords on, and from 10 technical skills on, the
    score formulas stay at 100. *)
Lemma keyword_formula_capped (n : nat) :
  (n <= 77)%nat ->
  JS.Math_min 100 (JS.of_nat n / 20 * 100)%float
  = JS.Math_min 100 (JS.of_nat (Nat.min n 20) / 20 * 100)%float.
Proof.
  intros H. apply FloatAxioms.Leibniz.eqb_spec.
  pose (P := fun k =>
               PrimFloat.Leibniz.eqb
                 (JS.Math_min 100 (JS.of_nat k / 20 * 100)%float)
                 (JS.Math_min 100 (JS.of_nat (Nat.min k 20) / 20 * 100)%float)).
  apply (below_in_seq P 77); [vm_compute; reflexivity | exact H].
Qed.

Lemma technical_formula_capped (m : nat) :
  (m <= 30)%nat ->
  JS.Math_min 100 (JS.of_nat m / 10 * 100)%float
  = JS.Math_min 100 (JS.of_nat (Nat.min m 10) / 10 * 100)%float.
Proof.
  intros H. apply FloatAxioms.Leibniz.eqb_spec.
  pose (P := fun k =>
               PrimFloat.Leibniz.eqb
                 (JS.Math_min 100 (JS.of_nat k / 10 * 100)%float)
                 (JS.Math_min 100 (JS.of_nat (Nat.min k 10) / 10 * 100)%float)).
  apply (below_in_seq P 30); [vm_compute; reflexivity | exact H].
Qed.

Lemma composite_whole_in_range (text : string) (d : CVAnalysis.t) :
  let r := snd (CVAnalysis.calculateATSScore
                  (CvRoutes.set_analysis d (CvRoutes.performATSAnalysis text))) in
  JS.in_0_100 r && PrimFloat.Leibniz.eqb (JS.Math_round r) r = true.
Proof.
  intros r.
  unfold r, CVAnalysis.calculateATSScore, CvRoutes.set_analysis,
    CvRoutes.performATSAnalysis, CvRoutes.analyzeKeywords,
    CvRoutes.analyzeFormatting, CvRoutes.analyzeContent,
    CvRoutes.analyzeTechnicalSkills, CVAnalysis.weight_keywords,
    CVAnalysis.weight_formatting, CVAnalysis.weight_content,
    CVAnalysis.weight_technical.
  cbn [snd CVAnalysis.analysis CVAnalysis.keywords CVAnalysis.formatting
       CVAnalysis.content CVAnalysis.technical CVAnalysis.kw_score
       CVAnalysis.fmt_score CVAnalysis.cnt_score CVAnalysis.tech_score].
  pose proof (filter_length_le
                (fun keyword =>
                   Str.includes (Str.toLowerCase text)
                                (Str.toLowerCase keyword))
                CvRoutes.commonTechKeywords) as Hn.
  change (List.length CvRoutes.commonTechKeywords) with 77%nat in Hn.
  pose proof (technical_total_le text) as Hm.
  revert Hn Hm.
  generalize (List.length
                (filter (fun keyword =>
                           Str.includes (Str.toLowerCase text)
                                        (Str.toLowerCase keyword))
                        CvRoutes.commonTechKeywords)).
  generalize (List.length
                (filter (fun lang => Str.includes (Str.toLowerCase text) lang)
                        CvRoutes.languageCatalog) +
              List.length
                (filter (fun fw => Str.includes (Str.toLowerCase text) fw)
                        CvRoutes.frameworkCatalog) +
              List.length
                (filter (fun tool => Str.includes (Str.toLowerCase text) tool)
                        CvRoutes.toolCatalog) +
              List.length
                (filter (fun db => Str.includes (Str.toLowerCase text) db)
                        CvRoutes.databaseCatalog))%nat.
  intros m n Hn Hm.
  rewrite (keyword_formula_capped n Hn), (technical_formula_capped m Hm).
  assert (Hn' : (Nat.min n 20 <= 20)%nat) by apply Nat.le_min_r.
  assert (Hm' : (Nat.min m 10 <= 10)%nat) by apply Nat.le_min_r.
  revert Hn' Hm'. generalize (Nat.min n 20), (Nat.min m 10).
  clear n m Hn Hm. intros n m Hn Hm.
  destruct (Regex.test_i CvRoutes.re_contact text),
           (Regex.test_i CvRoutes.re_skills text),
           (Regex.test_i CvRoutes.re_experience text),
           (Regex.test_i CvRoutes.re_achievements text),
           (Regex.test_i CvRoutes.re_relevant text),
           (Regex.test_i CvRoutes.re_education text),
           ((300 <=? Str.split_spaces_length text)
            && (Str.split_spaces_length text <=? 800));
  cbn [andb];
  match goal with
  | |- ?b = true =>
      let P := eval pattern n, m in b in
      match P with
      | ?F n m =>
          exact (below_in_seq2 F 20 10 ltac:(vm_compute; reflexivity)
                               n m Hn Hm)
      end
  end.
Qed.

(** X6. Whatever the text, the composite score computed from its analysis
    is a whole number between 0 and 100, so the score stored by analyze
    and the [afterScore] of compare always satisfy the schema's bounds on
    [atsScore]. *)
Theorem atsScore_in_schema_range (d : CVAnalysis.t) (text : string) :
  let r := snd (CVAnalysis.calculateATSScore
                  (CvRoutes.set_analysis d (CvRoutes.performATSAnalysis text))) in
  JS.in_0_100 r = true /\ JS.Math_round r = r /\
  CvRoutes.afterScoreOf (CvRoutes.performATSAnalysis text) = r.
Proof.
  intros r. pose proof (composite_whole_in_range text d) as H.
  cbv zeta in H. fold r in H.
  apply andb_prop in H. destruct H as [H1 H2].
  split; [exact H1|]. split.
  - apply FloatAxioms.Leibniz.eqb_spec. exact H2.
  - apply cv_afterScore_is_composite.
Qed.

(* ================================================================== *)
(** * GET /analysis/:id and POST /optimize/:id *)
(* ================================================================== *)

Lemma findOne_none {A : Type} (q : A -> bool) (l : list A) :
  Coll.findOne q l = None -> forall x, In x l -> q x = false.
Proof.
  unfold Coll.findOne. intros H.
  assert (N : Coll.findIndex q l = None).
  { destruct (Coll.findIndex q l) as [i|] eqn:E; [|reflexivity].
    destruct (findIndex_sound q l i E) as [y [Hy _]].
    rewrite Hy in H. discriminate. }
  clear H. induction l as [|y r IH]; intros x Hx; [destruct Hx|].
  simpl in N. destruct (q y) eqn:Q; [discriminate|].
  destruct (Coll.findIndex q r); [discriminate|].
  destruct Hx as [<-|Hx]; [exact Q | apply IH; [reflexivity | exact Hx]].
Qed.

(** X7. Reading an analysis changes nothing and crosses no account: the
    collection and the account are as before and no mail is sent; the
    answer is 404 exactly when no stored document has the requested id
    and belongs to the requester; otherwise the document sent has that id
    and that owner and is the first such stored document, uncut unless
    the plan is free. *)
Theorem getAnalysis_reads_own_only
        (user : User.t) (id : Z) (store : list CVAnalysis.t) :
  let out := CvRoutes.getAnalysis user id store in
  CvRoutes.out_store out = store /\
  CvRoutes.out_user out = user /\
  CvRoutes.out_mails out = [] /\
  match CvRoutes.out_response out with
  | Http.Error st msg =>
      st = 404 /\ msg = "Analysis not found"%string /\
      forall d, In d store ->
                ~ (CVAnalysis._id d = id /\ CVAnalysis.userId d = User._id user)
  | Http.Ok sent =>
      CvRoutes.json_id sent = id /\
      CvRoutes.json_userId sent = User._id user /\
      exists i d,
        Coll.findIndex (CvRoutes.byIdAndOwner id (User._id user)) store
          = Some i /\
        nth_error store i = Some d /\
        (User.plan user <> "free"%string -> sent = CvRoutes.toJSON d)
  end.
Proof.
  unfold CvRoutes.getAnalysis.
  destruct (Coll.findOne _ store) as [[i d]|] eqn:F.
  - destruct (findOne_sound _ _ _ _ F) as [Hi [Hn Hq]].
    unfold CvRoutes.byIdAndOwner in Hq. apply andb_prop in Hq.
    destruct Hq as [Q1 Q2]. apply Z.eqb_eq in Q1, Q2.
    cbn [CvRoutes.out_store CvRoutes.out_user CvRoutes.out_mails
         CvRoutes.out_response].
    split; [reflexivity|]. split; [reflexivity|]. split; [reflexivity|].
    split; [destruct (String.eqb (User.plan user) "free"); exact Q1|].
    split; [destruct (String.eqb (User.plan user) "free"); exact Q2|].
    exists i, d. split; [exact Hi|]. split; [exact Hn|].
    intros P. apply String.eqb_neq in P. rewrite P. reflexivity.
  - cbn. split; [reflexivity|]. split; [reflexivity|]. split; [reflexivity|].
    split; [reflexivity|]. split; [reflexivity|].
    intros d Hd [E1 E2]. pose proof (findOne_none _ _ F d Hd) as N.
    unfold CvRoutes.byIdAndOwner in N. rewrite E1, E2, !Z.eqb_refl in N.
    discriminate.
Qed.

(** X8. The optimized text is generated once.  After a request to
    optimize has been answered with a non-empty text, any later such
    request for the same analysis, the plan still allowing it, is
    answered with that same text and writes nothing: the stored
    [generatedAt] and text are those of the first request. *)
Theorem optimize_generates_once
        (user : User.t) (now now' id : Z) (store : list CVAnalysis.t)
        (text : string) :
  CvRoutes.out_response (CvRoutes.optimize user now id store) = Http.Ok text ->
  text <> EmptyString ->
  Http.requirePlan ["basic"; "pro"]%string user now' = None ->
  let store1 := CvRoutes.out_store (CvRoutes.optimize user now id store) in
  CvRoutes.out_response (CvRoutes.optimize user now' id store1) = Http.Ok text /\
  CvRoutes.out_store (CvRoutes.optimize user now' id store1) = store1.
Proof.
  intros H Ht R'. apply String.eqb_neq in Ht.
  unfold CvRoutes.optimize in *.
  destruct (Http.requirePlan _ user now) as [[st msg]|]; [discriminate H|].
  rewrite R'.
  destruct (Coll.findOne _ store) as [[i d]|] eqn:F; [|discriminate H].
  destruct (CvRoutes.optimizedText d) as [t|] eqn:O.
  - cbn [CvRoutes.out_response CvRoutes.out_store] in *.
    rewrite F, O. cbn. split; [exact H | reflexivity].
  - cbn [CvRoutes.out_response CvRoutes.out_store] in *.
    injection H as H.
    set (d' := CvRoutes.set_optimizedVersion d
                 (CvRoutes.generateOptimizedContent d, now)).
    assert (Q : CvRoutes.byIdAndOwner id (User._id user) d' = true).
    { destruct (findOne_sound _ _ _ _ F) as [_ [_ Hq]]. exact Hq. }
    rewrite (findOne_update_same _ _ i d' d F Q).
    assert (O' : CvRoutes.optimizedText d' = Some text).
    { unfold CvRoutes.optimizedText, d'.
      cbn [CvRoutes.set_optimizedVersion CVAnalysis.optimizedVersion].
      rewrite H, Ht. reflexivity. }
    rewrite O'. cbn. split; reflexivity.
Qed.

Lemma optimize_generates_once_witness :
  CvRoutes.out_response
    (CvRoutes.optimize proUser 1500 7
       (CvRoutes.out_store (CvRoutes.optimize proUser 1000 7 [sampleCv])))
  = CvRoutes.out_response (CvRoutes.optimize proUser 1000 7 [sampleCv]).
Proof.
  assert (E : exists text,
             CvRoutes.out_response (CvRoutes.optimize proUser 1000 7 [sampleCv])
             = Http.Ok text /\ text <> EmptyString).
  { eexists. split; [vm_compute; reflexivity | discriminate]. }
  destruct E as [text [E1 E2]].
  rewrite E1.
  exact (proj1 (optimize_generates_once proUser 1000 1500 7 [sampleCv] text
                  E1 E2 eq_refl)).
Defined.

(* ================================================================== *)
(** * The subscription-expired event, again *)
(* ================================================================== *)

Lemma update_update {A : Type} (i : nat) (x y : A) (l : list A) :
  Coll.update i x (Coll.update i y l) = Coll.update i x l.
Proof.
  revert i. induction l as [|z r IH]; intros [|i]; simpl;
    try reflexivity. rewrite IH. reflexivity.
Qed.

Lemma update_other {A : Type} (i j : nat) (x : A) (l : list A) :
  j <> i -> nth_error (Coll.update i x l) j = nth_error l j.
Proof.
  revert i j. induction l as [|z r IH]; intros [|i] [|j] H; simpl;
    try reflexivity; try congruence. apply IH. congruence.
Qed.

Lemma update_length {A : Type} (i : nat) (x : A) (l : list A) :
  List.length (Coll.update i x l) = List.length l.
Proof.
  revert i. induction l as [|z r IH]; intros [|i]; simpl;
    try reflexivity. rewrite IH. reflexivity.
Qed.

Lemma setSubscriptionStatus_idem (sid st : string) (l : list Payments.Payment) :
  Payments.setSubscriptionStatus sid st (Payments.setSubscriptionStatus sid st l)
  = Payments.setSubscriptionStatus sid st l.
Proof.
  unfold Payments.setSubscriptionStatus, Payments.findOneAndUpdate.
  destruct (Coll.findOne _ l) as [[i p]|] eqn:F; [|rewrite F; reflexivity].
  destruct (findOne_sound _ _ _ _ F) as [_ [_ Hq]].
  match goal with
  | |- context [Coll.update i ?p' l] =>
      rewrite (findOne_update_same _ l i p' p F Hq)
  end.
  cbn. apply update_update.
Qed.

(** X9. The subscription-expired handler is idempotent and local.
    Delivering the event twice leaves the database as one delivery does;
    a delivery keeps the number of accounts, every account other than the
    one resolved by the subscription id, and that account's usage
    counters and identity; an id that resolves to no account changes
    nothing. *)
Theorem subscription_expired_idempotent_local
        (db : Payments.DB) (data : Payments.EventData) :
  let db1 := Payments.handleSubscriptionExpired db data in
  Payments.handleSubscriptionExpired db1 data = db1 /\
  List.length (Payments.users db1) = List.length (Payments.users db) /\
  match Coll.findOne (Payments.bySubscriptionId (Payments.id data))
                     (Payments.users db) with
  | None => db1 = db
  | Some (i, u) =>
      (forall j, j <> i ->
         nth_error (Payments.users db1) j = nth_error (Payments.users db) j) /\
      exists u',
        nth_error (Payments.users db1) i = Some u' /\
        User.usage u' = User.usage u /\
        User.email u' = User.email u /\
        User.subscriptionId u' = User.subscriptionId u /\
        User.planExpiresAt u' = User.planExpiresAt u
  end.
Proof.
  unfold Payments.handleSubscriptionExpired.
  destruct (Coll.findOne _ (Payments.users db)) as [[i u]|] eqn:F;
    [|cbv zeta; rewrite F; repeat split].
  set (u' := User.set_planStatus (User.set_plan u "free") "expired").
  unfold Payments.save.
  replace (User.validate u') with true by reflexivity.
  cbv zeta. cbn [Payments.users Payments.payments].
  destruct (findOne_sound _ _ _ _ F) as [_ [Hn Hq]].
  assert (Q : Payments.bySubscriptionId (Payments.id data) u' = true)
    by exact Hq.
  rewrite (findOne_update_same _ _ i u' u F Q).
  fold u'. replace (User.validate
                      (User.set_planStatus (User.set_plan u' "free") "expired"))
    with true by reflexivity.
  replace (User.set_planStatus (User.set_plan u' "free") "expired") with u'
    by reflexivity.
  rewrite update_update, setSubscriptionStatus_idem.
  split; [reflexivity|]. split; [apply update_length|].
  split; [intros j Hj; apply update_other; exact Hj|].
  exists u'. split; [apply (nth_error_update _ _ _ u Hn)|].
  repeat split.
Qed.

(* ================================================================== *)
(** * What the optimizer adds *)
(* ================================================================== *)

Lemma test_from_app (i : bool) (r : Regex.t) (a b : string) :
  Regex.test_from i r b = true -> Regex.test_from i r (a ++ b) = true.
Proof.
  intros H. induction a as [|c a IH]; [exact H|].
  cbn [String.append Regex.test_from]. rewrite IH. apply orb_true_r.
Qed.

Lemma append_assoc (a b c : string) :
  ((a ++ b) ++ c = a ++ (b ++ c))%string.
Proof.
  induction a as [|x a IH]; [reflexivity|].
  cbn [String.append]. rewrite IH. reflexivity.
Qed.

Lemma skills_heading_found (tail : string) :
  Regex.test_i CvRoutes.re_skills
    (Str.nl ++ Str.nl ++ "TECHNICAL SKILLS" ++ tail) = true.
Proof. reflexivity. Qed.

Lemma additional_skills_found (tail : string) :
  Regex.test_i CvRoutes.re_skills
    (Str.nl ++ Str.nl ++ "Additional Technical Skills: " ++ tail) = true.
Proof. reflexivity. Qed.

(** X10. The optimizer only appends.  The optimized text begins with the
    extracted text; it is the extracted text itself when the stored
    analysis has a skills section and lists no missing keyword; in every
    other case the appended lines make the skills pattern match, so the
    analysis that compare runs on the optimized text finds a skills
    section. *)
Theorem optimized_content_appends_skills (d : CVAnalysis.t) :
  let text := CvRoutes.generateOptimizedContent d in
  let a := CVAnalysis.analysis d in
  (exists added, text = (CVAnalysis.extractedText d ++ added)%string) /\
  (CVAnalysis.hasSkillsSection (CVAnalysis.formatting a) = true ->
   CVAnalysis.missing (CVAnalysis.keywords a) = [] ->
   text = CVAnalysis.extractedText d) /\
  (CVAnalysis.hasSkillsSection (CVAnalysis.formatting a) = false \/
   CVAnalysis.missing (CVAnalysis.keywords a) <> [] ->
   CVAnalysis.hasSkillsSection
     (CVAnalysis.formatting (CvRoutes.performATSAnalysis text)) = true).
Proof.
  cbv zeta. unfold CvRoutes.generateOptimizedContent.
  cbn [CvRoutes.performATSAnalysis CVAnalysis.formatting
       CvRoutes.analyzeFormatting CVAnalysis.hasSkillsSection].
  destruct (CVAnalysis.hasSkillsSection
              (CVAnalysis.formatting (CVAnalysis.analysis d))) eqn:S;
    destruct (CVAnalysis.missing
                (CVAnalysis.keywords (CVAnalysis.analysis d)))
      as [|k ks] eqn:M;
    cbn [firstn List.length Nat.ltb Nat.leb negb].
  - split; [exists EmptyString; clear; induction (CVAnalysis.extractedText d);
            [reflexivity | cbn; congruence]|].
    split; [reflexivity|]. intros [H|H]; [discriminate | congruence].
  - split; [eexists; reflexivity|].
    split; [discriminate|]. intros _.
    apply test_from_app. apply additional_skills_found.
  - split; [eexists; reflexivity|].
    split; [discriminate|]. intros _.
    apply test_from_app. apply skills_heading_found.
  - split; [eexists; rewrite append_assoc; reflexivity|].
    split; [discriminate|]. intros _.
    apply test_from_app. apply skills_heading_found.
Qed.

(* ================================================================== *)
(** * Keywords that contain other keywords *)
(* ================================================================== *)

Lemma startsWith_iff (s p : string) :
  Str.startsWith s p = true <-> exists b, s = (p ++ b)%string.
Proof.
  revert s. induction p as [|a p IH]; intros s.
  - destruct s; cbn; split; intros; eauto.
  - destruct s as [|b s]; cbn [Str.startsWith String.append].
    + split; [discriminate | intros [t H]; discriminate H].
    + rewrite andb_true_iff, Ascii.eqb_eq, IH. split.
      * intros [-> [t ->]]. exists t. reflexivity.
      * intros [t H]. injection H as -> ->. split; [reflexivity | eauto].
Qed.

Lemma includes_iff (s p : string) :
  Str.includes s p = true <-> exists a b, s = (a ++ p ++ b)%string.
Proof.
  induction s as [|c s IH]; cbn [Str.includes].
  - rewrite orb_false_r, startsWith_iff. split.
    + intros [b H]. exists EmptyString, b. exact H.
    + intros [a [b H]]. destruct a; [exists b; exact H | discriminate H].
  - rewrite orb_true_iff, startsWith_iff, IH. split.
    + intros [[b H]|[a [b H]]].
      * exists EmptyString, b. exact H.
      * exists (String c a), b. cbn. rewrite H. reflexivity.
    + intros [[|x a] [b H]].
      * left. exists b. exact H.
      * right. cbn in H. injection H as _ H. exists a, b. exact H.
Qed.

Lemma includes_trans (s p q : string) :
  Str.includes s p = true -> Str.includes p q = true ->
  Str.includes s q = true.
Proof.
  rewrite !includes_iff. intros [a [b ->]] [a' [b' ->]].
  exists (a ++ a')%string, (b' ++ b)%string.
  rewrite !append_assoc. reflexivity.
Qed.

Lemma found_iff (text k : string) :
  In k (CVAnalysis.found (CvRoutes.analyzeKeywords text)) <->
  In k CvRoutes.commonTechKeywords /\
  Str.includes (Str.toLowerCase text) (Str.toLowerCase k) = true.
Proof.
  exact (filter_In
           (fun keyword =>
              Str.includes (Str.toLowerCase text) (Str.toLowerCase keyword))
           k CvRoutes.commonTechKeywords).
Qed.

(** X11. Keywords are looked up as substrings, so a keyword that contains
    another catalogue keyword never comes alone: whenever the longer one
    is found in a text, the shorter one is found too (javascript brings
    java, github brings git, mysql brings sql). *)
Theorem substring_keywords_found_together (text long short : string) :
  Str.includes (Str.toLowerCase long) (Str.toLowerCase short) = true ->
  In short CvRoutes.commonTechKeywords ->
  In long (CVAnalysis.found (CvRoutes.analyzeKeywords text)) ->
  In short (CVAnalysis.found (CvRoutes.analyzeKeywords text)).
Proof.
  intros Hsub Hs Hl. apply found_iff in Hl. destruct Hl as [_ Hl].
  apply found_iff. split; [exact Hs|].
  exact (includes_trans _ _ _ Hl Hsub).
Qed.

Lemma substring_keywords_found_together_witness :
  In "java"%string (CVAnalysis.found (CvRoutes.analyzeKeywords "I write JavaScript")) /\
  In "git"%string (CVAnalysis.found (CvRoutes.analyzeKeywords "see my GitHub")) /\
  In "sql"%string (CVAnalysis.found (CvRoutes.analyzeKeywords "MySQL admin")).
Proof.
  split; [|split].
  - apply (substring_keywords_found_together "I write JavaScript" "javascript" "java");
      [reflexivity | vm_compute; tauto | vm_compute; tauto].
  - apply (substring_keywords_found_together "see my GitHub" "github" "git");
      [reflexivity | vm_compute; tauto | vm_compute; tauto].
  - apply (substring_keywords_found_together "MySQL admin" "mysql" "sql");
      [reflexivity | vm_compute; tauto | vm_compute; tauto].
Defined.
